(** * Aitrader: position lifecycle, cycle scheduler and shorting score

    A shallow embedding of the trading core of the repository:
    - [StockAnalyzer.get_shorting_score], [_calculate_indicators] and
      [get_recommendation] (stock_analyzer.py);
    - [TradingEngine.open_position], [close_position] and
      [_log_transaction] (trading_engine.py), over the persistent store of
      db_manager.py and the Streamlit session state;
    - the hidden trading logic of app.py (the block run on every rerun);
    - the trading-hours tests, the position sizing and the performance
      metrics of utils.py, with the market sessions of data_service.py
      and asx_trading_service.py;
    - the watch-list table of db_manager.py and the rotation over it
      ([TradingEngine.get_next_stock_for_trading]);
    - the order guards and the polling loop of asx_trading_service.py and
      the cache of data_service.py.

    Python floats are modelled as exact rationals ([Q]); the non-finite
    values that pandas produces on the way (NaN of a short rolling window,
    the infinity of a division by zero) are kept explicit in [xfloat].
    Rounding and the sign of zero are not modelled. *)

From Stdlib Require Import ZArith QArith Qround List String Bool Lia Lqa.
From Stdlib Require Import DecimalString Qabs ZifyBool.
Import ListNotations.
Open Scope Q_scope.

(* ------------------------------------------------------------------ *)
(** ** Rational helpers *)

Definition Qlt_bool (x y : Q) : bool := negb (Qle_bool y x).

Definition Qis_zero (x : Q) : bool := Qeq_bool x 0.

(** Python's [int(x)] on a float: truncation towards zero. *)
Definition py_int (x : Q) : Z := Z.quot (Qnum x) (Zpos (Qden x)).

Definition Qsum (xs : list Q) : Q := fold_right Qplus 0 xs.

Definition Qmean (xs : list Q) : Q := Qsum xs / inject_Z (Z.of_nat (List.length xs)).

(** The last [n] elements, Python's [xs[-n:]] for [n > 0]. *)
Definition lastn {A} (n : nat) (xs : list A) : list A :=
  skipn (List.length xs - n) xs.

(* ------------------------------------------------------------------ *)
(** ** Floats with NaN and infinities *)

Inductive xfloat : Type :=
| Fin (q : Q)
| PInf
| NInf
| NaN.

Definition xneg (a : xfloat) : xfloat :=
  match a with
  | Fin q => Fin (- q)
  | PInf => NInf
  | NInf => PInf
  | NaN => NaN
  end.

Definition xadd (a b : xfloat) : xfloat :=
  match a, b with
  | NaN, _ | _, NaN => NaN
  | Fin x, Fin y => Fin (x + y)
  | PInf, NInf | NInf, PInf => NaN
  | PInf, _ | _, PInf => PInf
  | NInf, _ | _, NInf => NInf
  end.

Definition xsub (a b : xfloat) : xfloat := xadd a (xneg b).

Definition xdiv (a b : xfloat) : xfloat :=
  match a, b with
  | NaN, _ | _, NaN => NaN
  | Fin x, Fin y =>
      if Qis_zero y then
        (if Qis_zero x then NaN else if Qlt_bool 0 x then PInf else NInf)
      else Fin (x / y)
  | Fin _, PInf | Fin _, NInf => Fin 0
  | PInf, Fin y => if Qlt_bool y 0 then NInf else PInf
  | NInf, Fin y => if Qlt_bool y 0 then PInf else NInf
  | _, _ => NaN
  end.

(** [a > b]; every comparison with NaN is false. *)
Definition xgt (a b : xfloat) : bool :=
  match a, b with
  | NaN, _ | _, NaN => false
  | Fin x, Fin y => Qlt_bool y x
  | PInf, PInf => false
  | PInf, _ => true
  | _, NInf => match a with NInf => false | _ => true end
  | _, _ => false
  end.

Definition xlt (a b : xfloat) : bool := xgt b a.

Definition is_nan (a : xfloat) : bool :=
  match a with NaN => true | _ => false end.

Definition is_fin (a : xfloat) : option Q :=
  match a with Fin q => Some q | _ => None end.

Definition xsum (xs : list xfloat) : xfloat := fold_left xadd xs (Fin 0).

(* ------------------------------------------------------------------ *)
(** ** Exceptions *)

Inductive exn : Type :=
| ValueError (msg : string)
| ArithmeticError
| TypeError
| KeyError (key : string)
| ConnectionError
| BrokerageError (msg : string).

Inductive result (A : Type) : Type :=
| Ok (a : A)
| Raise (e : exn).
Arguments Ok {A} a.
Arguments Raise {A} e.

Definition rbind {A B} (r : result A) (k : A -> result B) : result B :=
  match r with
  | Ok a => k a
  | Raise e => Raise e
  end.

(* ------------------------------------------------------------------ *)
(** ** Bars and data frames *)

Record Bar : Type := mkBar {
  bar_Open : Q;
  bar_High : Q;
  bar_Low : Q;
  bar_Close : Q;
  bar_Volume : Q
}.

(** A pandas DataFrame of OHLCV bars: its rows and which of the five
    columns it has. *)
Record DataFrame : Type := mkDF {
  rows : list Bar;
  has_Open : bool;
  has_High : bool;
  has_Low : bool;
  has_Close : bool;
  has_Volume : bool
}.

Definition len (df : DataFrame) : nat := List.length (rows df).

(** [df.empty]: no rows or no columns. *)
Definition empty (df : DataFrame) : bool :=
  (Nat.eqb (len df) 0)
  || negb (has_Open df || has_High df || has_Low df || has_Close df || has_Volume df).

(** [df['Close']] and the like: KeyError on a missing column. *)
Definition column (name : string) (present : bool) (f : Bar -> Q)
  (df : DataFrame) : result (list Q) :=
  if present then Ok (map f (rows df)) else Raise (KeyError name).

Definition col_Close (df : DataFrame) := column "Close" (has_Close df) bar_Close df.
Definition col_High (df : DataFrame) := column "High" (has_High df) bar_High df.
Definition col_Low (df : DataFrame) := column "Low" (has_Low df) bar_Low df.
Definition col_Volume (df : DataFrame) := column "Volume" (has_Volume df) bar_Volume df.

(* ------------------------------------------------------------------ *)
(** ** Series operations *)

(** [s.rolling(window=w).mean()]: NaN until [w] observations are there. *)
Definition rolling_mean (w : nat) (xs : list Q) : list xfloat :=
  map (fun i =>
         if Nat.leb w (S i)
         then Fin (Qmean (firstn w (skipn (S i - w) xs)))
         else NaN)
      (seq 0 (List.length xs)).

(** [s.diff()]: NaN first, then the successive differences. *)
Fixpoint diff_from (prev : Q) (xs : list Q) : list xfloat :=
  match xs with
  | [] => []
  | x :: tl => Fin (x - prev) :: diff_from x tl
  end.

Definition diff (xs : list Q) : list xfloat :=
  match xs with
  | [] => []
  | x :: tl => NaN :: diff_from x tl
  end.

(** [s.pct_change()]: NaN first, then [x / prev - 1]. *)
Fixpoint pct_change_from (prev : Q) (xs : list Q) : list xfloat :=
  match xs with
  | [] => []
  | x :: tl => xsub (xdiv (Fin x) (Fin prev)) (Fin 1) :: pct_change_from x tl
  end.

Definition pct_change (xs : list Q) : list xfloat :=
  match xs with
  | [] => []
  | x :: tl => NaN :: pct_change_from x tl
  end.

Definition dropna (xs : list xfloat) : list xfloat :=
  filter (fun a => negb (is_nan a)) xs.

(** [s.mean()] of a float series (NaN skipped): NaN when nothing is left. *)
Definition xmean (xs : list xfloat) : xfloat :=
  let ys := dropna xs in
  match ys with
  | [] => NaN
  | _ => xdiv (xsum ys) (Fin (inject_Z (Z.of_nat (List.length ys))))
  end.

Fixpoint all_fin (xs : list xfloat) : option (list Q) :=
  match xs with
  | [] => Some []
  | Fin q :: tl => option_map (cons q) (all_fin tl)
  | _ :: _ => None
  end.

(** The square of [s.std()] (sample variance, ddof = 1, NaN skipped): NaN
    with fewer than two observations or with an infinite one. *)
Definition xvar (xs : list xfloat) : xfloat :=
  match all_fin (dropna xs) with
  | None => NaN
  | Some qs =>
      if Nat.leb (List.length qs) 1 then NaN
      else
        let m := Qmean qs in
        Fin (Qsum (map (fun q => (q - m) * (q - m)) qs)
             / inject_Z (Z.of_nat (List.length qs - 1)))
  end.

(** [s.std() * 100 > t] for [t >= 0], decided on the variance. *)
Definition std_pct_gt (xs : list xfloat) (t : Q) : bool :=
  xgt (xvar xs) (Fin ((t / 100) * (t / 100))).

Definition last_x (xs : list xfloat) : xfloat := last xs NaN.

(* ------------------------------------------------------------------ *)
(** ** stock_analyzer.py *)

Module StockAnalyzer.

(** The indicator columns that [get_shorting_score] reads.  The Bollinger,
    MACD and ATR columns are written by the source as well but never read
    by the score; of them only the column accesses that can fail are kept. *)
Record Indicators : Type := mkInd {
  SMA20 : list xfloat;
  SMA50 : list xfloat;
  RSI : list xfloat
}.

(** [delta.where(cond, 0)]: the entry where [cond] holds, 0 elsewhere
    (a comparison with the leading NaN is false). *)
Definition where_or_zero (cond : Q -> bool) (delta : list xfloat) : list Q :=
  map (fun d => match d with
                | Fin v => if cond v then v else 0
                | _ => 0
                end) delta.

Fixpoint zip_with {A B C} (f : A -> B -> C) (xs : list A) (ys : list B) : list C :=
  match xs, ys with
  | x :: xs', y :: ys' => f x y :: zip_with f xs' ys'
  | _, _ => []
  end.

Definition rsi_series (close : list Q) : list xfloat :=
  let delta := diff close in
  let gain := where_or_zero (fun v => Qlt_bool 0 v) delta in
  let loss := map Qopp (where_or_zero (fun v => Qlt_bool v 0) delta) in
  let avg_gain := rolling_mean 14 gain in
  let avg_loss := rolling_mean 14 loss in
  let rs := zip_with xdiv avg_gain avg_loss in
  map (fun r => xsub (Fin 100) (xdiv (Fin 100) (xadd (Fin 1) r))) rs.

(** [_calculate_indicators]: the frame with its indicator columns, or, when
    any step raises (a missing Close, High or Low column), the frame as it
    came, without them. *)
Definition _calculate_indicators (data : DataFrame) : option Indicators :=
  match
    rbind (col_Close data) (fun close =>
    rbind (col_High data) (fun _ =>
    rbind (col_Low data) (fun _ =>
    Ok {| SMA20 := rolling_mean 20 close;
          SMA50 := rolling_mean 50 close;
          RSI := rsi_series close |})))
  with
  | Ok ind => Some ind
  | Raise _ => None
  end.

Definition latest_Close (df : DataFrame) : Q := last (map bar_Close (rows df)) 0.

Definition points (b : bool) (n : Z) : Z := if b then n else 0%Z.

(** 1. trend: Close below SMA20, SMA20 below SMA50. *)
Definition trend_points (df : DataFrame) (ind : option Indicators) : Z :=
  match ind with
  | Some i =>
      (points (xlt (Fin (latest_Close df)) (last_x (SMA20 i))) 10
       + points (xlt (last_x (SMA20 i)) (last_x (SMA50 i))) 15)%Z
  | None => 0%Z
  end.

(** 2. momentum: the if/elif/elif on the latest RSI. *)
Definition momentum_points (ind : option Indicators) : Z :=
  match ind with
  | Some i =>
      let rsi := last_x (RSI i) in
      if xgt rsi (Fin 70) then 15%Z
      else if xgt rsi (Fin 60) then 10%Z
      else if xlt rsi (Fin 30) then (-15)%Z
      else 0%Z
  | None => 0%Z
  end.

(** 3. volatility of the last five closes. *)
Definition volatility_points (df : DataFrame) : result Z :=
  if Nat.leb 5 (len df) then
    rbind (col_Close df) (fun close =>
    Ok (points (std_pct_gt (pct_change (lastn 5 close)) 3) 5))
  else Ok 0%Z.

(** 4. latest volume against 1.5 times the five-bar average. *)
Definition volume_points (df : DataFrame) : Z :=
  if has_Volume df && Nat.leb 5 (len df) then
    let volume := map bar_Volume (rows df) in
    let avg_volume := Qmean (lastn 5 volume) in
    let latest_volume := last volume 0 in
    points (Qlt_bool (avg_volume * (3 # 2)) latest_volume) 5
  else 0%Z.

(** 5. mean of the last changes above one percent. *)
Definition recent_gain_points (df : DataFrame) : result Z :=
  if Nat.leb 3 (len df) then
    rbind (col_Close df) (fun close =>
    let last_3_days := dropna (pct_change (lastn 3 close)) in
    Ok (points (Nat.ltb 0 (List.length last_3_days)
                && xgt (xmean last_3_days) (Fin (1 # 100))) 10))
  else Ok 0%Z.

(** The [try] block of [get_shorting_score]. *)
Definition get_shorting_score_body (stock_data : DataFrame) : result Z :=
  if empty stock_data then Ok 0%Z
  else
    let ind := _calculate_indicators stock_data in
    let score := 50%Z in
    let score := (score + trend_points stock_data ind)%Z in
    let score := (score + momentum_points ind)%Z in
    rbind (volatility_points stock_data) (fun v =>
    let score := (score + v)%Z in
    let score := (score + volume_points stock_data)%Z in
    rbind (recent_gain_points stock_data) (fun g =>
    let score := (score + g)%Z in
    Ok (Z.max 0 (Z.min 100 score)))).

(** [get_shorting_score]: any exception is logged and the score is 0. *)
Definition get_shorting_score (stock_data : DataFrame) : Z :=
  match get_shorting_score_body stock_data with
  | Ok score => score
  | Raise _ => 0%Z
  end.

Record Recommendation : Type := mkRec {
  rec_symbol : string;
  recommendation : string;
  score : option Z
}.

(** [get_recommendation]; [data] is [None] when no frame is passed.  The
    confidence, reason and time entries are not modelled. *)
Definition get_recommendation (symbol : string) (data : option DataFrame)
  : Recommendation :=
  match data with
  | None => mkRec symbol "NEUTRAL" None
  | Some df =>
      if empty df then mkRec symbol "NEUTRAL" None
      else
        let score := get_shorting_score df in
        if (70 <=? score)%Z then mkRec symbol "STRONG SHORT" (Some score)
        else if (60 <=? score)%Z then mkRec symbol "SHORT" (Some score)
        else if (score <=? 30)%Z then mkRec symbol "AVOID SHORT" (Some score)
        else mkRec symbol "NEUTRAL" (Some score)
  end.

End StockAnalyzer.

(* ------------------------------------------------------------------ *)
(** ** Persistent store (db_manager.py) and session state *)

(** Row of the [current_position] table. *)
Record CurrentPosition : Type := mkCurrentPosition {
  cp_symbol : string;
  cp_entry_price : Q;
  cp_quantity : Z;
  cp_position_size : Q
}.

(** The position dict kept in [st.session_state.current_position]
    (its entry_time and constant type 'short' are left out). *)
Record Position : Type := mkPosition {
  symbol : string;
  entry_price : Q;
  quantity : Z;
  position_size : Q;
  order_id : option string;
  real_trade : bool
}.

(** A row of the trading history; [P_L] is [None] for Python's None. *)
Record Transaction : Type := mkTransaction {
  Stock : string;
  Action : string;
  Price : Q;
  Quantity : Z;
  P_L : option Q;
  Reason : string
}.

Record AccountSettings : Type := mkSettings {
  initial_balance : Q;
  current_balance : Q;
  take_profit_pct : Q;
  stop_loss_pct : Q;
  position_size_pct : Q
}.

Record WatchItem : Type := mkWatchItem {
  item_symbol : string;
  last_price : Q
}.

(** One recorded invocation of [close_position]: the position and reason it
    was given and the session's current position at that moment. *)
Record CloseCall : Type := mkCloseCall {
  call_position : Position;
  call_reason : string;
  call_current_position : option Position
}.

Record State : Type := mkState {
  (* database *)
  db_current_position : option CurrentPosition;
  db_trading_history : list Transaction;
  db_account_settings : AccountSettings;
  (* st.session_state *)
  current_position : option Position;
  account_balance : Q;
  trading_history : list Transaction;
  last_cycle : Q;
  cycle_interval : Q;
  stock_list : list WatchItem;
  (* instrumentation: the calls of close_position so far *)
  close_calls : list CloseCall
}.

(** Programs over the state that may raise; what was written before an
    exception stays written. *)
Definition M (A : Type) : Type := State -> State * result A.

Definition ret {A} (a : A) : M A := fun st => (st, Ok a).

Definition raise {A} (e : exn) : M A := fun st => (st, Raise e).

Definition bind {A B} (m : M A) (k : A -> M B) : M B :=
  fun st =>
    match m st with
    | (st', Ok a) => k a st'
    | (st', Raise e) => (st', Raise e)
    end.

Definition lift {A} (r : result A) : M A := fun st => (st, r).

Definition get {A} (f : State -> A) : M A := fun st => (st, Ok (f st)).

Definition modify (f : State -> State) : M unit := fun st => (f st, Ok tt).

(** [try: m except Exception: h]. *)
Definition try_except {A} (m : M A) (h : exn -> M A) : M A :=
  fun st =>
    match m st with
    | (st', Ok a) => (st', Ok a)
    | (st', Raise e) => h e st'
    end.

Notation "x <- m ;; k" := (bind m (fun x => k))
  (at level 61, m at next level, right associativity).
Notation "m ;;; k" := (bind m (fun _ => k))
  (at level 61, right associativity).

Definition when (b : bool) (m : M unit) : M unit := if b then m else ret tt.

Module DatabaseManager.

Definition set_current_position (symbol : string) (entry_price : Q)
  (quantity : Z) (position_size : Q) : M unit :=
  modify (fun st =>
    mkState (Some (mkCurrentPosition symbol entry_price quantity position_size))
            (db_trading_history st) (db_account_settings st)
            (current_position st) (account_balance st) (trading_history st)
            (last_cycle st) (cycle_interval st) (stock_list st) (close_calls st)).

Definition clear_current_position : M unit :=
  modify (fun st =>
    mkState None
            (db_trading_history st) (db_account_settings st)
            (current_position st) (account_balance st) (trading_history st)
            (last_cycle st) (cycle_interval st) (stock_list st) (close_calls st)).

Definition add_trading_record (t : Transaction) : M unit :=
  modify (fun st =>
    mkState (db_current_position st)
            (db_trading_history st ++ [t]) (db_account_settings st)
            (current_position st) (account_balance st) (trading_history st)
            (last_cycle st) (cycle_interval st) (stock_list st) (close_calls st)).

Definition get_account_settings : M AccountSettings := get db_account_settings.

(** [update_account_settings(current_balance=...)]: only that field. *)
Definition update_current_balance (new_balance : Q) : M unit :=
  modify (fun st =>
    let s := db_account_settings st in
    mkState (db_current_position st) (db_trading_history st)
            (mkSettings (initial_balance s) new_balance (take_profit_pct s)
                        (stop_loss_pct s) (position_size_pct s))
            (current_position st) (account_balance st) (trading_history st)
            (last_cycle st) (cycle_interval st) (stock_list st) (close_calls st)).

End DatabaseManager.

Module Session.

(** [st.session_state.current_position = p]. *)
Definition assign_current_position (p : option Position) : M unit :=
  modify (fun st =>
    mkState (db_current_position st) (db_trading_history st) (db_account_settings st)
            p (account_balance st) (trading_history st)
            (last_cycle st) (cycle_interval st) (stock_list st) (close_calls st)).

Definition add_account_balance (pnl : Q) : M unit :=
  modify (fun st =>
    mkState (db_current_position st) (db_trading_history st) (db_account_settings st)
            (current_position st) (account_balance st + pnl) (trading_history st)
            (last_cycle st) (cycle_interval st) (stock_list st) (close_calls st)).

Definition append_trading_history (t : Transaction) : M unit :=
  modify (fun st =>
    mkState (db_current_position st) (db_trading_history st) (db_account_settings st)
            (current_position st) (account_balance st) (trading_history st ++ [t])
            (last_cycle st) (cycle_interval st) (stock_list st) (close_calls st)).

Definition set_last_cycle (t : Q) : M unit :=
  modify (fun st =>
    mkState (db_current_position st) (db_trading_history st) (db_account_settings st)
            (current_position st) (account_balance st) (trading_history st)
            t (cycle_interval st) (stock_list st) (close_calls st)).

Definition record_close_call (c : CloseCall) : M unit :=
  modify (fun st =>
    mkState (db_current_position st) (db_trading_history st) (db_account_settings st)
            (current_position st) (account_balance st) (trading_history st)
            (last_cycle st) (cycle_interval st) (stock_list st) (close_calls st ++ [c])).

End Session.

(* ------------------------------------------------------------------ *)
(** ** Collaborators: market data and brokerage *)

(** A value of an order dict's 'filled_avg_price' entry. *)
Inductive field : Type :=
| Absent
| Null
| Num (q : Q).

Record Order : Type := mkOrder {
  id : option string;
  status : string;
  filled_avg_price : field
}.

(** What the brokerage answers; [None] is a call that returns nothing. *)
Record TradingService : Type := mkService {
  open_short_position : string -> Z -> result (option Order);
  close_short_position : string -> Z -> result (option Order);
  wait_for_order_fill : option string -> result (option Order)
}.

Record DataService : Type := mkData {
  (** the 'last_price' entry of [get_latest_stock_data(symbol)] *)
  get_latest_stock_data : string -> result Q;
  get_stock_historical_data : string -> result DataFrame
}.

(* ------------------------------------------------------------------ *)
(** ** trading_engine.py *)

Module TradingEngine.

Record t : Type := mkEngine {
  data_service : DataService;
  real_trading_enabled : bool;
  trading_service : option TradingService
}.

(** [float(order.get('filled_avg_price', default))]. *)
Definition py_float (f : field) (default : option Q) : result Q :=
  match f with
  | Num q => Ok q
  | Null => Raise TypeError
  | Absent =>
      match default with
      | Some q => Ok q
      | None => Raise TypeError
      end
  end.

Definition is_pending (s : string) : bool :=
  existsb (String.eqb s) ["new"%string; "accepted"%string; "pending_new"%string].

(** The body of the inner [try] that both [open_position] and
    [close_position] run on the order the brokerage returned: the order
    kept in [order_info] (set before anything after the call can raise),
    and either the price to go on with or the exception raised. *)
Definition order_fill (svc : TradingService) (placed : result (option Order))
  (current_price : option Q) : option Order * result (option Q) :=
  match placed with
  | Raise e => (None, Raise e)
  | Ok None => (None, Ok current_price)
  | Ok (Some order_info) =>
      if String.eqb (status order_info) "filled" then
        (Some order_info,
         rbind (py_float (filled_avg_price order_info) current_price)
               (fun p => Ok (Some p)))
      else if is_pending (status order_info) then
        match wait_for_order_fill svc (id order_info) with
        | Raise e => (Some order_info, Raise e)
        | Ok (Some filled_order) =>
            if String.eqb (status filled_order) "filled" then
              (Some order_info,
               rbind (py_float (filled_avg_price filled_order) current_price)
                     (fun p => Ok (Some p)))
            else (Some order_info, Ok current_price)
        | Ok None => (Some order_info, Ok current_price)
        end
      else (Some order_info, Ok current_price)
  end.

Definition is_some {A} (o : option A) : bool :=
  match o with Some _ => true | None => false end.

Definition _log_transaction (symbol action : string) (price : Q)
  (quantity : Z) (pnl : option Q) (reason : string) : M unit :=
  let transaction := mkTransaction symbol action price quantity pnl reason in
  DatabaseManager.add_trading_record transaction ;;;
  Session.append_trading_history transaction.

Definition size_too_small : exn :=
  ValueError "Position size too small to open a position".

(** [quantity = int(position_size / current_price)]; a zero price makes the
    division, or with numpy floats the conversion of its non-finite result,
    raise; [ArithmeticError] stands for whichever exception that is. *)
Definition compute_quantity (position_size current_price : Q) : result Z :=
  if Qis_zero current_price then Raise ArithmeticError
  else Ok (py_int (position_size / current_price)).

(** The real-trading block of [open_position]: the order kept in
    [order_info] and the entry price to use.  An exception of the brokerage
    is logged and the quoted price kept. *)
Definition open_fill (self : t) (symbol : string) (quantity : Z)
  (current_price : Q) : option Order * Q :=
  match real_trading_enabled self, trading_service self with
  | true, Some svc =>
      let '(order_info, outcome) :=
        order_fill svc (open_short_position svc symbol quantity)
                   (Some current_price) in
      (order_info,
       match outcome with
       | Ok (Some p) => p
       | Ok None => current_price
       | Raise _ => current_price
       end)
  | _, _ => (None, current_price)
  end.

Definition open_position (self : t) (symbol : string)
  (position_size current_price : Q) : M Position :=
  quantity <- lift (compute_quantity position_size current_price) ;;
  if (quantity <=? 0)%Z then raise size_too_small
  else
    let '(order_info, current_price) :=
      open_fill self symbol quantity current_price in
    let real := real_trading_enabled self && is_some order_info in
    DatabaseManager.set_current_position symbol current_price quantity position_size ;;;
    let position :=
      mkPosition symbol current_price quantity position_size
                 (match order_info with Some o => id o | None => None end)
                 real in
    Session.assign_current_position (Some position) ;;;
    _log_transaction symbol "Short Open" current_price quantity (Some 0)
      ("New position" ++ (if real then " (REAL)" else " (SIM)"))%string ;;;
    ret position.

(** [current_price = data_service.get_latest_stock_data(symbol)['last_price']]
    when no price was passed. *)
Definition fetch_if_none (self : t) (symbol : string) (current_price : option Q)
  : M (option Q) :=
  match current_price with
  | None => p <- lift (get_latest_stock_data (data_service self) symbol) ;; ret (Some p)
  | Some p => ret (Some p)
  end.

(** The price-finding block of [close_position]: the order kept in
    [order_info] and the price after the block ([None] when it is still
    unset).  Raises only when the market-data call does. *)
Definition close_fill (self : t) (position : Position) (current_price : option Q)
  : M (option Order * option Q) :=
  match real_trading_enabled self, trading_service self, real_trade position with
  | true, Some svc, true =>
      let '(order_info, outcome) :=
        order_fill svc
                   (close_short_position svc (symbol position) (quantity position))
                   current_price in
      match outcome with
      | Ok p => ret (order_info, p)
      | Raise _ =>
          p <- fetch_if_none self (symbol position) current_price ;;
          ret (order_info, p)
      end
  | _, _, _ =>
      p <- fetch_if_none self (symbol position) current_price ;;
      ret (None, p)
  end.

Definition close_position (self : t) (position : Position) (reason : string)
  (current_price : option Q) : M Q :=
  cur <- get current_position ;;
  Session.record_close_call (mkCloseCall position reason cur) ;;;
  let symbol := symbol position in
  let entry_price := entry_price position in
  let quantity := quantity position in
  let is_real_trade := real_trade position in
  r <- close_fill self position current_price ;;
  let '(order_info, current_price) := r in
  match current_price with
  | None => raise TypeError    (* entry_price - None *)
  | Some current_price =>
      let pnl := (entry_price - current_price) * inject_Z quantity in
      settings <- DatabaseManager.get_account_settings ;;
      let new_balance := current_balance settings + pnl in
      DatabaseManager.update_current_balance new_balance ;;;
      Session.add_account_balance pnl ;;;
      _log_transaction symbol "Short Close" current_price quantity (Some pnl)
        (reason ++ (if is_real_trade && is_some order_info
                    then " (REAL)" else " (SIM)"))%string ;;;
      DatabaseManager.clear_current_position ;;;
      Session.assign_current_position None ;;;
      ret pnl
  end.

End TradingEngine.

(* ------------------------------------------------------------------ *)
(** ** app.py: the hidden trading logic *)

Module App.

Import StockAnalyzer.

Definition nonempty {A} (xs : list A) : bool :=
  match xs with [] => false | _ :: _ => true end.

Definition is_short_call (r : string) : bool :=
  existsb (String.eqb r) ["SHORT"%string; "STRONG SHORT"%string].

(** One turn of the loop over the watch list; a failure on a symbol is
    logged and the symbol skipped. *)
Definition scan_step (ds : DataService) (best : option WatchItem * Z)
  (stock : WatchItem) : option WatchItem * Z :=
  let symbol := item_symbol stock in
  match get_stock_historical_data ds symbol with
  | Raise _ => best
  | Ok data =>
      let r := get_recommendation symbol (Some data) in
      if is_short_call (recommendation r) then
        match score r with
        | Some s => if (snd best <? s)%Z then (Some stock, s) else best
        | None => best
        end
      else best
  end.

(** [best_stock = None; best_score = 0; for stock in stock_list: ...]. *)
Definition find_best (ds : DataService) (stocks : list WatchItem)
  : option WatchItem * Z :=
  fold_left (scan_step ds) stocks (None, 0%Z).

(** The branch taken while a position is open. *)
Definition manage_position (ds : DataService) (engine : TradingEngine.t)
  (current_time time_since_cycle : Q) (position : Position) : M unit :=
  current_price <- lift (get_latest_stock_data ds (symbol position)) ;;
  account_settings <- DatabaseManager.get_account_settings ;;
  let take_profit_pct := take_profit_pct account_settings in
  let stop_loss_pct := stop_loss_pct account_settings in
  let entry_price := entry_price position in
  let take_profit_target := entry_price * (1 - take_profit_pct / 100) in
  time_since_cycle <-
    (if Qle_bool current_price take_profit_target then
       TradingEngine.close_position engine position "Take profit"
                                    (Some current_price) ;;;
       get cycle_interval
     else ret time_since_cycle) ;;
  let stop_loss_target := entry_price * (1 + stop_loss_pct / 100) in
  if Qle_bool stop_loss_target current_price then
    TradingEngine.close_position engine position "Stop loss"
                                 (Some current_price) ;;;
    ret tt
  else
    interval <- get cycle_interval ;;
    cur <- get current_position ;;
    if Qle_bool interval time_since_cycle && TradingEngine.is_some cur then
      TradingEngine.close_position engine position "End of cycle rotation"
                                   (Some current_price) ;;;
      Session.set_last_cycle current_time
    else ret tt.

(** The test of the [elif] that starts a new cycle. *)
Definition new_cycle_test (time_since_cycle interval : Q)
  (cur : option Position) (stocks : list WatchItem) : bool :=
  (Qle_bool interval time_since_cycle || negb (TradingEngine.is_some cur))
  && nonempty stocks.

(** The body of that [elif]: pick the best candidate and open it. *)
Definition new_cycle (ds : DataService) (engine : TradingEngine.t)
  (current_time : Q) : M unit :=
  Session.set_last_cycle current_time ;;;
  stocks <- get stock_list ;;
  let '(best_stock, best_score) := find_best ds stocks in
  match best_stock with
  | Some stock =>
      if (60 <=? best_score)%Z then
        let symbol := item_symbol stock in
        current_price <- lift (get_latest_stock_data ds symbol) ;;
        account_settings <- DatabaseManager.get_account_settings ;;
        balance <- get account_balance ;;
        let position_size := balance * (position_size_pct account_settings / 100) in
        try_except
          (TradingEngine.open_position engine symbol position_size current_price ;;;
           ret tt)
          (fun _ => ret tt)
      else ret tt
  | None => ret tt
  end.

(** The block under [if is_asx_trading_hours():], exceptions caught and
    logged at its end. *)
Definition in_hours_logic (ds : DataService) (engine : TradingEngine.t)
  (current_time : Q) : M unit :=
  try_except
    (last <- get last_cycle ;;
     let time_since_cycle := current_time - last in
     cur <- get current_position ;;
     match cur with
     | Some position =>
         manage_position ds engine current_time time_since_cycle position
     | None =>
         interval <- get cycle_interval ;;
         stocks <- get stock_list ;;
         if new_cycle_test time_since_cycle interval None stocks
         then new_cycle ds engine current_time
         else ret tt
     end)
    (fun _ => ret tt).

(** The [else]: outside trading hours an open position is closed. *)
Definition out_of_hours_logic (ds : DataService) (engine : TradingEngine.t)
  : M unit :=
  cur <- get current_position ;;
  match cur with
  | Some position =>
      try_except
        (current_price <- lift (get_latest_stock_data ds (symbol position)) ;;
         TradingEngine.close_position engine position "Market closed"
                                      (Some current_price) ;;;
         ret tt)
        (fun _ => ret tt)
  | None => ret tt
  end.

(** The trading logic of one rerun, after the refresh of the watch list
    prices (which touches neither position nor cycle). *)
Definition trading_logic (ds : DataService) (engine : TradingEngine.t)
  (current_time : Q) (is_asx_trading_hours : bool) : M unit :=
  if is_asx_trading_hours then in_hours_logic ds engine current_time
  else out_of_hours_logic ds engine.

End App.

(* ------------------------------------------------------------------ *)
(** ** Concrete inputs used by the examples below *)

Module Examples.

Import StockAnalyzer.

(** A bar whose four prices are all [c], with volume 1000. *)
Definition flat_bar (c : Z) : Bar :=
  mkBar (inject_Z c) (inject_Z c) (inject_Z c) (inject_Z c) 1000.

Definition frame_of_closes (cs : list Z) : DataFrame :=
  mkDF (map flat_bar cs) true true true true true.

(** Fifty bars: thirty at 10000, a five-bar spike at 100000, then a slow
    climb from 10000 with a single one-point dip. *)
Definition spike_then_climb : DataFrame :=
  frame_of_closes
    (repeat 10000 30 ++ repeat 100000 5
     ++ [10000; 10001; 10002; 10001; 10002; 10003; 10004; 10005;
         10006; 10007; 10008; 10009; 10010; 10011; 10012])%Z.

(** Fifty bars: thirty at 100000, five at 50000, then a slow climb from
    10000 with a single one-point dip; close < SMA20 < SMA50. *)
Definition step_down_then_climb : DataFrame :=
  frame_of_closes
    (repeat 100000 30 ++ repeat 50000 5
     ++ [10000; 10001; 10002; 10001; 10002; 10003; 10004; 10005;
         10006; 10007; 10008; 10009; 10010; 10011; 10012])%Z.

(** Five bars without a Close column. *)
Definition no_close_frame : DataFrame :=
  mkDF (map flat_bar [1; 2; 3; 4; 5]%Z) true true true false true.

(** Three bars gaining about two percent each. *)
Definition rising_frame : DataFrame := frame_of_closes [100; 102; 104]%Z.

Definition market_at (p : Q) : DataService :=
  mkData (fun _ => Ok p) (fun _ => Ok rising_frame).

Definition sim_engine (p : Q) : TradingEngine.t :=
  TradingEngine.mkEngine (market_at p) false None.

Definition order_with (s : string) : Order := mkOrder (Some "ord-1"%string) s Absent.

(** A brokerage that rejects every opening order, cancels every closing
    order and never reports a fill. *)
Definition refusing_service : TradingService :=
  mkService (fun _ _ => Ok (Some (order_with "rejected")))
            (fun _ _ => Ok (Some (order_with "canceled")))
            (fun _ => Ok None).

Definition real_engine (p : Q) : TradingEngine.t :=
  TradingEngine.mkEngine (market_at p) true (Some refusing_service).

Definition default_settings : AccountSettings := mkSettings 10000 10000 2 1 10.

(** No position, balance 10000, one symbol on the watch list, an hourly
    cycle whose last start was at time 0. *)
Definition flat_state : State :=
  mkState None [] default_settings None 10000 [] 0 3600
          [mkWatchItem "BHP" 50] [].

Definition short_50_20 : Position := mkPosition "BHP" 50 20 1000 None false.

Definition real_short_50_20 : Position :=
  mkPosition "BHP" 50 20 1000 (Some "ord-1"%string) true.

Definition short_state (p : Position) : State :=
  mkState (Some (mkCurrentPosition (symbol p) (entry_price p) (quantity p)
                                   (position_size p)))
          [] default_settings (Some p) 10000 [] 0 3600
          [mkWatchItem "BHP" 50] [].

End Examples.

(* ------------------------------------------------------------------ *)
(** ** The states an open and a close lead to *)

Module Outcome.

Definition open_transaction (symbol : string) (price : Q) (quantity : Z)
  (real : bool) : Transaction :=
  mkTransaction symbol "Short Open" price quantity (Some 0)
    ("New position" ++ (if real then " (REAL)" else " (SIM)"))%string.

(** The state after an open filled at [price]. *)
Definition opened (st : State) (p : Position) : State :=
  let t := open_transaction (symbol p) (entry_price p) (quantity p) (real_trade p) in
  mkState (Some (mkCurrentPosition (symbol p) (entry_price p) (quantity p)
                                   (position_size p)))
          (db_trading_history st ++ [t])
          (db_account_settings st)
          (Some p) (account_balance st) (trading_history st ++ [t])
          (last_cycle st) (cycle_interval st) (stock_list st) (close_calls st).

Definition pnl_of (p : Position) (price : Q) : Q :=
  (entry_price p - price) * inject_Z (quantity p).

Definition close_transaction (p : Position) (reason : string) (price : Q)
  (real : bool) : Transaction :=
  mkTransaction (symbol p) "Short Close" price (quantity p)
    (Some (pnl_of p price))
    (reason ++ (if real then " (REAL)" else " (SIM)"))%string.

(** The state after a close of [p] filled at [price]. *)
Definition closed (st : State) (p : Position) (reason : string) (price : Q)
  (real : bool) : State :=
  let t := close_transaction p reason price real in
  let s := db_account_settings st in
  mkState None
          (db_trading_history st ++ [t])
          (mkSettings (initial_balance s) (current_balance s + pnl_of p price)
                      (take_profit_pct s) (stop_loss_pct s) (position_size_pct s))
          None (account_balance st + pnl_of p price) (trading_history st ++ [t])
          (last_cycle st) (cycle_interval st) (stock_list st)
          (close_calls st ++ [mkCloseCall p reason (current_position st)]).

(** The state after a call of [close_position] that raised before any
    write: only the call is on record. *)
Definition called (st : State) (p : Position) (reason : string) : State :=
  mkState (db_current_position st) (db_trading_history st) (db_account_settings st)
          (current_position st) (account_balance st) (trading_history st)
          (last_cycle st) (cycle_interval st) (stock_list st)
          (close_calls st ++ [mkCloseCall p reason (current_position st)]).



(** The state with its [last_cycle] replaced. *)
Definition with_last_cycle (t : Q) (st : State) : State :=
  mkState (db_current_position st) (db_trading_history st) (db_account_settings st)
          (current_position st) (account_balance st) (trading_history st)
          t (cycle_interval st) (stock_list st) (close_calls st).


(** Whether [close_position] sends an order to the brokerage. *)
Definition sends_order (self : TradingEngine.t) (p : Position) : bool :=
  TradingEngine.real_trading_enabled self
  && TradingEngine.is_some (TradingEngine.trading_service self)
  && real_trade p.

End Outcome.

(* ------------------------------------------------------------------ *)
(** ** Sequences of engine calls and ticks *)

Module Ledger.


(** What can be done to the state: a call of [open_position], a call of
    [close_position], or one run of the trading logic. *)
Inductive action : Type :=
| DoOpen (self : TradingEngine.t) (symbol : string) (position_size current_price : Q)
| DoClose (self : TradingEngine.t) (position : Position) (reason : string)
          (current_price : option Q)
| DoTick (ds : DataService) (engine : TradingEngine.t) (current_time : Q)
         (is_asx_trading_hours : bool).

(** The state an action leaves, whether it returned or raised. *)
Definition perform (st : State) (a : action) : State :=
  match a with
  | DoOpen self symbol size price =>
      fst (TradingEngine.open_position self symbol size price st)
  | DoClose self position reason cp =>
      fst (TradingEngine.close_position self position reason cp st)
  | DoTick ds engine now hours =>
      fst (App.trading_logic ds engine now hours st)
  end.

Definition perform_all (st : State) (acts : list action) : State :=
  fold_left perform acts st.



(** Everything of the state but the record of the [close_position] calls. *)
Definition same_data (a b : State) : Prop :=
  db_current_position a = db_current_position b
  /\ db_trading_history a = db_trading_history b
  /\ db_account_settings a = db_account_settings b
  /\ current_position a = current_position b
  /\ account_balance a = account_balance b
  /\ trading_history a = trading_history b
  /\ last_cycle a = last_cycle b
  /\ cycle_interval a = cycle_interval b
  /\ stock_list a = stock_list b.

(** The states reached from [st] by the four writes the engine and the
    trading logic perform: storing an opened position (only when [opens]
    is set), settling a close, putting a call on record, and resetting
    last_cycle. *)
Inductive evolves (opens : bool) (st : State) : State -> Prop :=
| ev_refl : evolves opens st st
| ev_opened (st' : State) (p : Position) :
    opens = true ->
    evolves opens st st' -> evolves opens st (Outcome.opened st' p)
| ev_closed (st' : State) (p : Position) (reason : string) (fill : Q)
            (real : bool) :
    evolves opens st st' ->
    evolves opens st (Outcome.closed st' p reason fill real)
| ev_called (st' : State) (p : Position) (reason : string) :
    evolves opens st st' -> evolves opens st (Outcome.called st' p reason)
| ev_cycle (st' : State) (t : Q) :
    evolves opens st st' -> evolves opens st (Outcome.with_last_cycle t st').


End Ledger.

(* ------------------------------------------------------------------ *)
(** ** Candidates of the watch-list scan *)

Module Scan.

(** The score with which a watch-list entry competes in the scan: the one
    of its recommendation when its data can be fetched and the
    recommendation is SHORT or STRONG SHORT, none otherwise. *)
Definition candidate (ds : DataService) (stock : WatchItem) : option Z :=
  match get_stock_historical_data ds (item_symbol stock) with
  | Raise _ => None
  | Ok data =>
      let r := StockAnalyzer.get_recommendation (item_symbol stock) (Some data) in
      if App.is_short_call (StockAnalyzer.recommendation r)
      then StockAnalyzer.score r
      else None
  end.

End Scan.

(* ------------------------------------------------------------------ *)
(** ** Wall-clock time in Sydney *)

Module Clock.

(** A datetime as its calendar day ([date.toordinal()]) and the
    microseconds since midnight; all datetimes of one computation carry
    the same tzinfo, so they compare and subtract by these two fields. *)
Record datetime : Type := mkDT {
  ordinal : Z;
  micros : Z
}.

Definition day_micros : Z := 86400000000.

Definition hour_micros : Z := 3600000000.

(** A time of day that exists. *)
Definition wf (d : datetime) : Prop := (0 <= micros d < day_micros)%Z.

(** [d.weekday()]: Monday is 0, Sunday is 6. *)
Definition weekday (d : datetime) : Z := ((ordinal d + 6) mod 7)%Z.

(** [d.replace(hour=h, minute=0, second=0, microsecond=0)]. *)
Definition at_hour (h : Z) (d : datetime) : datetime :=
  mkDT (ordinal d) (h * hour_micros)%Z.

(** [d + timedelta(days=k)]. *)
Definition add_days (k : Z) (d : datetime) : datetime :=
  mkDT (ordinal d + k)%Z (micros d).

Definition dt_leb (a b : datetime) : bool :=
  (ordinal a <? ordinal b)%Z
  || ((ordinal a =? ordinal b)%Z && (micros a <=? micros b)%Z).

Definition dt_ltb (a b : datetime) : bool :=
  (ordinal a <? ordinal b)%Z
  || ((ordinal a =? ordinal b)%Z && (micros a <? micros b)%Z).

(** [a - b] as a timedelta, in microseconds. *)
Definition minus (a b : datetime) : Z :=
  ((ordinal a - ordinal b) * day_micros + (micros a - micros b))%Z.

(** The [days] and [seconds] fields of a timedelta. *)
Definition td_days (td : Z) : Z := (td / day_micros)%Z.

Definition td_seconds (td : Z) : Z := ((td mod day_micros) / 1000000)%Z.

(** [str(n)] of an int. *)
Definition str (n : Z) : string := NilZero.string_of_int (Z.to_int n).

End Clock.

(* ------------------------------------------------------------------ *)
(** ** utils.py *)

Module Utils.

Import Clock.

(** [is_asx_trading_hours], on the current Sydney time. *)
Definition is_asx_trading_hours (current_time : datetime) : bool :=
  if (4 <? weekday current_time)%Z then false
  else
    let market_open := at_hour 10 current_time in
    let market_close := at_hour 16 current_time in
    dt_leb market_open current_time && dt_leb current_time market_close.

(** The opening that [get_asx_market_status] counts down to while the
    market is closed. *)
Definition next_open (current_time : datetime) : datetime :=
  let is_weekday := (weekday current_time <=? 4)%Z in
  let market_open := at_hour 10 current_time in
  let next_open_day :=
    if negb is_weekday then
      let days_to_monday := ((7 - weekday current_time) mod 7)%Z in
      add_days days_to_monday current_time
    else if dt_ltb current_time market_open then current_time
    else
      let next_open_day := add_days 1 current_time in
      if (4 <? weekday next_open_day)%Z
      then add_days (7 - weekday next_open_day) next_open_day
      else next_open_day in
  at_hour 10 next_open_day.

(** [get_asx_market_status]: status, colour and countdown message. *)
Definition get_asx_market_status (current_time : datetime)
  : string * string * string :=
  let is_weekday := (weekday current_time <=? 4)%Z in
  let market_open := at_hour 10 current_time in
  let market_close := at_hour 16 current_time in
  if is_weekday && dt_leb market_open current_time
     && dt_leb current_time market_close then
    (* int((market_close - current_time).total_seconds() / 60) *)
    let minutes_until_close := (minus market_close current_time / 60000000)%Z in
    let hours := (minutes_until_close / 60)%Z in
    let minutes := (minutes_until_close mod 60)%Z in
    let time_msg :=
      if (0 <? hours)%Z
      then (str hours ++ "h " ++ str minutes ++ "m until close")%string
      else (str minutes ++ "m until close")%string in
    ("MARKET OPEN"%string, "#1DB954"%string, time_msg)
  else
    let time_delta := minus (next_open current_time) current_time in
    let days := td_days time_delta in
    let hours := (td_seconds time_delta / 3600)%Z in
    let remainder := (td_seconds time_delta mod 3600)%Z in
    let minutes := (remainder / 60)%Z in
    let time_msg :=
      if (0 <? days)%Z then
        ("Opens in " ++ str days ++ "d " ++ str hours ++ "h "
         ++ str minutes ++ "m")%string
      else if (0 <? hours)%Z then
        ("Opens in " ++ str hours ++ "h " ++ str minutes ++ "m")%string
      else ("Opens in " ++ str minutes ++ "m")%string in
    ("MARKET CLOSED"%string, "#ff4b4b"%string, time_msg).


End Utils.

(* ------------------------------------------------------------------ *)
(** ** data_service.py and asx_trading_service.py: market sessions *)

Module Sessions.

Import Clock.

(** The day and hour that [DataService.get_asx_market_info] counts down
    to while its status is CLOSED. *)
Definition next_trading_day (sydney_time : datetime) : datetime :=
  let is_weekday := (weekday sydney_time <? 5)%Z in
  let market_open_time := at_hour 10 sydney_time in
  let market_close_time := at_hour 16 sydney_time in
  if negb is_weekday then
    let days_to_monday := ((7 - weekday sydney_time) mod 7)%Z in
    at_hour 10 (add_days days_to_monday sydney_time)
  else if dt_ltb market_close_time sydney_time then
    at_hour 10 (add_days 1 sydney_time)
  else market_open_time.

(** The 'status' entry of [DataService.get_asx_market_info]. *)
Definition market_info_status (sydney_time : datetime) : string :=
  let is_weekday := (weekday sydney_time <? 5)%Z in
  let market_open_time := at_hour 10 sydney_time in
  let market_close_time := at_hour 16 sydney_time in
  let is_trading_hours :=
    dt_leb market_open_time sydney_time && dt_leb sydney_time market_close_time in
  if is_weekday && is_trading_hours then "OPEN"%string else "CLOSED"%string.

(** The dict of [ASXTradingService._get_next_asx_session]; an entry is
    [None] when the key is not set.  The entries are given by their
    calendar day and time of day in Sydney (the fields
    [datetime.combine] sets). *)
Record session : Type := mkSession {
  session_next_open : option datetime;
  session_next_close : option datetime
}.

(** [datetime.combine(date, time)] for the date of [d] moved by [k] days
    and the full hour [h]. *)
Definition combine (d : datetime) (k h : Z) : datetime :=
  mkDT (ordinal d + k)%Z (h * hour_micros)%Z.

Definition _get_next_asx_session (now : datetime) : session :=
  let current_day := weekday now in
  let current_time := micros now in
  let market_open_time := (10 * hour_micros)%Z in
  let market_close_time := (16 * hour_micros)%Z in
  if (current_day <? 5)%Z && (current_time <? market_open_time)%Z then
    mkSession (Some (combine now 0 10)) (Some (combine now 0 16))
  else if (current_day <? 4)%Z && (market_close_time <? current_time)%Z then
    mkSession (Some (combine now 1 10)) (Some (combine now 1 16))
  else if ((current_day =? 4)%Z && (market_close_time <? current_time)%Z)
          || (5 <=? current_day)%Z then
    let days_until_monday := ((7 - current_day) mod 7)%Z in
    let days_until_monday :=
      if (days_until_monday =? 0)%Z then 7%Z else days_until_monday in
    mkSession (Some (combine now days_until_monday 10))
              (Some (combine now days_until_monday 16))
  else if (current_day <? 5)%Z && (market_open_time <=? current_time)%Z
          && (current_time <=? market_close_time)%Z then
    let next_day := if (current_day <? 4)%Z then 1%Z else 3%Z in
    mkSession (Some (combine now next_day 10)) (Some (combine now 0 16))
  else mkSession None None.

End Sessions.

(* ------------------------------------------------------------------ *)
(** ** utils.py: performance metrics *)

Module Performance.

(** [pat in s] for strings. *)
Fixpoint contains (pat s : string) : bool :=
  match s with
  | EmptyString => String.prefix pat EmptyString
  | String _ rest => String.prefix pat s || contains pat rest
  end.

Record metrics : Type := mkMetrics {
  total_trades : nat;
  winning_trades : nat;
  losing_trades : nat;
  win_rate : Q;
  total_profit : Q;
  total_loss : Q;
  profit_factor : xfloat;
  average_win : Q;
  average_loss : Q;
  largest_win : xfloat;
  largest_loss : xfloat
}.

(** The P/L column of some rows; a missing P/L is NaN and fails every
    comparison, so it is in neither selection. *)
Definition pnl_where (cond : Q -> bool) (rows : list Transaction) : list Q :=
  flat_map (fun t => match P_L t with
                     | Some p => if cond p then [p] else []
                     | None => []
                     end) rows.

(** [s.max()] and [s.min()], NaN skipped; NaN when nothing is left. *)
Definition series_max (xs : list Q) : xfloat :=
  match xs with
  | [] => NaN
  | x :: tl => Fin (fold_left (fun m y => if Qlt_bool m y then y else m) tl x)
  end.

Definition series_min (xs : list Q) : xfloat :=
  match xs with
  | [] => NaN
  | x :: tl => Fin (fold_left (fun m y => if Qlt_bool y m then y else m) tl x)
  end.

(** [Action.str.contains('Close')] on a row. *)
Definition is_close (t : Transaction) : bool := contains "Close" (Action t).

(** [calculate_performance_metrics] on a history whose P/L column is
    numeric. *)
Definition calculate_performance_metrics (trading_history : list Transaction)
  : metrics :=
  match trading_history with
  | [] => mkMetrics 0 0 0 0 0 0 (Fin 0) 0 0 (Fin 0) (Fin 0)
  | _ =>
      let close_trades :=
        filter is_close trading_history in
      let total_trades := List.length close_trades in
      let wins := pnl_where (fun p => Qlt_bool 0 p) close_trades in
      let losses := pnl_where (fun p => Qle_bool p 0) close_trades in
      let winning_trades := List.length wins in
      let losing_trades := List.length losses in
      let win_rate :=
        if Nat.ltb 0 total_trades
        then inject_Z (Z.of_nat winning_trades) / inject_Z (Z.of_nat total_trades) * 100
        else 0 in
      let total_profit := Qsum wins in
      let total_loss := Qsum losses in
      let profit_factor :=
        if negb (Qis_zero total_loss)
        then Fin (Qabs (total_profit / total_loss))
        else PInf in
      let average_win :=
        if Nat.ltb 0 winning_trades
        then total_profit / inject_Z (Z.of_nat winning_trades) else 0 in
      let average_loss :=
        if Nat.ltb 0 losing_trades
        then total_loss / inject_Z (Z.of_nat losing_trades) else 0 in
      let all_pnl := pnl_where (fun _ => true) close_trades in
      mkMetrics total_trades winning_trades losing_trades win_rate
                total_profit total_loss profit_factor average_win average_loss
                (series_max all_pnl) (series_min all_pnl)
  end.

End Performance.

(* ------------------------------------------------------------------ *)
(** ** db_manager.py: the watch-list table *)

Module Watchlist.

(** The rows of [stock_watchlist] (id and added_at left out); the symbol
    column is declared unique. *)
Definition table : Type := list WatchItem.

Definition has_symbol (symbol : string) (tb : table) : bool :=
  existsb (fun r => String.eqb (item_symbol r) symbol) tb.

Definition get_stock_watchlist (tb : table) : list WatchItem := tb.

(** [add_stock_to_watchlist]: a symbol already there violates the unique
    constraint, the commit raises, the session is rolled back and False is
    returned. *)
Definition add_stock_to_watchlist (symbol : string) (last_price : Q)
  (tb : table) : table * bool :=
  if has_symbol symbol tb then (tb, false)
  else (tb ++ [mkWatchItem symbol last_price], true).

(** [session.delete] of the first row with the symbol. *)
Fixpoint delete_first (symbol : string) (tb : table) : table :=
  match tb with
  | [] => []
  | r :: rest =>
      if String.eqb (item_symbol r) symbol then rest
      else r :: delete_first symbol rest
  end.

Definition remove_stock_from_watchlist (symbol : string) (tb : table)
  : table * bool :=
  if has_symbol symbol tb then (delete_first symbol tb, true)
  else (tb, false).

(** The first row with the symbol gets the price. *)
Fixpoint set_first_price (symbol : string) (last_price : Q) (tb : table)
  : table :=
  match tb with
  | [] => []
  | r :: rest =>
      if String.eqb (item_symbol r) symbol
      then mkWatchItem (item_symbol r) last_price :: rest
      else r :: set_first_price symbol last_price rest
  end.

Definition update_stock_price (symbol : string) (last_price : Q) (tb : table)
  : table * bool :=
  if has_symbol symbol tb then (set_first_price symbol last_price tb, true)
  else (tb, false).

Definition clear_watchlist (tb : table) : table * bool := ([], true).

(** A request to the table. *)
Inductive request : Type :=
| Add (symbol : string) (last_price : Q)
| Remove (symbol : string)
| Update (symbol : string) (last_price : Q)
| Clear.

Definition serve (tb : table) (r : request) : table :=
  match r with
  | Add s p => fst (add_stock_to_watchlist s p tb)
  | Remove s => fst (remove_stock_from_watchlist s tb)
  | Update s p => fst (update_stock_price s p tb)
  | Clear => fst (clear_watchlist tb)
  end.

Definition symbols (tb : table) : list string := map item_symbol tb.

End Watchlist.

(* ------------------------------------------------------------------ *)
(** ** trading_engine.py: rotation over the watch list *)

Module Rotation.

(** The loop that looks for the current symbol: the index of the first
    row with it, or -1. *)
Fixpoint index_from (i : Z) (current_symbol : string) (stocks : list WatchItem)
  : Z :=
  match stocks with
  | [] => (-1)%Z
  | stock :: rest =>
      if String.eqb (item_symbol stock) current_symbol then i
      else index_from (i + 1) current_symbol rest
  end.

(** [get_next_stock_for_trading] on the rows the database returns. *)
Definition get_next_stock_for_trading (stocks : list WatchItem)
  (current_symbol : option string) : option WatchItem :=
  match stocks with
  | [] => None
  | first :: _ =>
      match current_symbol with
      | None => Some first
      | Some s =>
          let current_index := index_from 0 s stocks in
          if (0 <=? current_index)%Z then
            let next_index :=
              ((current_index + 1) mod Z.of_nat (List.length stocks))%Z in
            nth_error stocks (Z.to_nat next_index)
          else Some first
      end
  end.

(** The symbols met when the rotation is followed [k] times. *)
Fixpoint follow (stocks : list WatchItem) (k : nat) (s : string) : option string :=
  match k with
  | O => Some s
  | S k' =>
      match get_next_stock_for_trading stocks (Some s) with
      | Some stock => follow stocks k' (item_symbol stock)
      | None => None
      end
  end.

End Rotation.

(* ------------------------------------------------------------------ *)
(** ** asx_trading_service.py *)

Module ASXService.

(** [s.endswith(suffix)]. *)
Definition ends_with (suffix s : string) : bool :=
  let n := String.length s in
  let m := String.length suffix in
  Nat.leb m n && String.eqb (String.substring (n - m) m s) suffix.

(** The symbol as sent to the brokerage: ".AX" is appended unless the
    symbol ends with ".AX" or has a dot in it. *)
Definition asx_symbol (symbol : string) : string :=
  if negb (ends_with ".AX" symbol) && negb (Performance.contains "." symbol)
  then (symbol ++ ".AX")%string
  else symbol.

(** A position as the brokerage lists it. *)
Record BrokerPosition : Type := mkBrokerPosition {
  bp_symbol : string;
  bp_qty : Z
}.

(** What the service sends to the brokerage to trade. *)
Inductive request : Type :=
| PlaceOrder (symbol : string) (qty : Z) (side : string)
| ClosePosition (symbol : string).

(** The brokerage connector: its answers to the calls of the service.
    The 'shortable' entry of an asset is [None] when the key is missing;
    [get_order n id] is the answer to the poll number [n] for the order. *)
Record Brokerage : Type := mkBrokerage {
  get_asset : string -> result (option bool);
  get_positions : result (list BrokerPosition);
  execute : request -> result Order;
  get_order : nat -> option string -> result Order
}.

Record t : Type := mkASX {
  is_connected : bool;
  brokerage : Brokerage
}.

Definition check_stock_shortable (self : t) (symbol : string) : result bool :=
  if negb (is_connected self) then Raise ConnectionError
  else
    let symbol := asx_symbol symbol in
    match get_asset (brokerage self) symbol with
    | Ok asset => Ok (match asset with Some b => b | None => false end)
    | Raise _ => Ok false
    end.

(** [open_short_position] and [close_short_position] return the order or
    raise; with the result come the requests sent to the brokerage. *)
Definition open_short_position (self : t) (symbol : string) (quantity : Z)
  : list request * result Order :=
  if negb (is_connected self) then ([], Raise ConnectionError)
  else
    let symbol := asx_symbol symbol in
    match check_stock_shortable self symbol with
    | Raise e => ([], Raise e)
    | Ok false =>
        ([], Raise (ValueError (symbol ++ " is not available for shorting")))
    | Ok true =>
        let r := PlaceOrder symbol quantity "sell" in
        ([r], execute (brokerage self) r)
    end.

Definition close_short_position (self : t) (symbol : string)
  (quantity : option Z) : list request * result Order :=
  if negb (is_connected self) then ([], Raise ConnectionError)
  else
    let symbol := asx_symbol symbol in
    match quantity with
    | None =>
        let r := ClosePosition symbol in
        ([r], execute (brokerage self) r)
    | Some quantity =>
        match get_positions (brokerage self) with
        | Raise e => ([], Raise e)
        | Ok positions =>
            match find (fun p => String.eqb (bp_symbol p) symbol) positions with
            | None => ([], Raise (ValueError ("No position found for " ++ symbol)))
            | Some position =>
                if (Z.abs (bp_qty position) <? quantity)%Z then
                  ([], Raise (ValueError
                                ("Requested quantity " ++ Clock.str quantity
                                 ++ " exceeds position size "
                                 ++ Clock.str (Z.abs (bp_qty position)))))
                else
                  let r := PlaceOrder symbol quantity "buy" in
                  ([r], execute (brokerage self) r)
            end
        end
    end.

Definition is_final (status : string) : bool :=
  existsb (String.eqb status)
          ["filled"%string; "canceled"%string; "rejected"%string; "expired"%string].

(** What a run of the polling loop of [wait_for_order_fill] came to. *)
Inductive waited : Type :=
| Returned (order : option Order)
| Polling.

(** The loop of [wait_for_order_fill] over the readings of the clock, one
    per turn; [n] counts the polls made.  A failed poll is logged and the
    loop goes on.  [Polling] says the readings ran out before the loop
    ended. *)
Fixpoint wait_loop (self : t) (order_id : option string) (start_time timeout : Q)
  (n : nat) (clock : list Q) : waited :=
  match clock with
  | [] => Polling
  | now :: later =>
      if Qlt_bool (now - start_time) timeout then
        match get_order (brokerage self) n order_id with
        | Ok order =>
            if is_final (status order) then Returned (Some order)
            else wait_loop self order_id start_time timeout (S n) later
        | Raise _ => wait_loop self order_id start_time timeout (S n) later
        end
      else Returned None
  end.

(** [wait_for_order_fill]; the first reading of the clock is the start
    time. *)
Definition wait_for_order_fill (self : t) (order_id : option string)
  (timeout : Q) (clock : list Q) : result waited :=
  if negb (is_connected self) then Raise ConnectionError
  else
    match clock with
    | [] => Ok Polling
    | start_time :: later => Ok (wait_loop self order_id start_time timeout 0 later)
    end.

End ASXService.

(* ------------------------------------------------------------------ *)
(** ** data_service.py: the cached market data *)

Module MarketData.

(** The two dicts of the service, [cache] and [cache_expiry]. *)
Record t : Type := mkCache {
  cache : string -> option DataFrame;
  cache_expiry : string -> option Q
}.

Definition empty_cache : t := mkCache (fun _ => None) (fun _ => None).

Definition cache_duration : Q := 60.

Definition cache_key (symbol period interval : string) : string :=
  (symbol ++ "_" ++ period ++ "_" ++ interval)%string.

Definition store (key : string) (data : DataFrame) (now : Q) (c : t) : t :=
  mkCache (fun k => if String.eqb k key then Some data else cache c k)
          (fun k => if String.eqb k key then Some now else cache_expiry c k).

(** [get_stock_historical_data]; [provider] stands for
    [yf.Ticker(symbol).history(period, interval)] and [current_time] for
    [time.time()]. *)
Definition get_stock_historical_data
  (provider : string -> string -> string -> result DataFrame)
  (current_time : Q) (symbol period interval : string) (c : t)
  : t * result DataFrame :=
  let key := cache_key symbol period interval in
  let fetch :=
    match provider symbol period interval with
    | Raise e => (c, Raise e)
    | Ok data =>
        if empty data
        then (c, Raise (ValueError ("No data available for " ++ symbol)))
        else (store key data current_time c, Ok data)
    end in
  match cache c key with
  | Some data =>
      let stamp := match cache_expiry c key with Some t0 => t0 | None => 0 end in
      if Qlt_bool (current_time - stamp) cache_duration
      then (c, Ok data)
      else fetch
  | None => fetch
  end.

(** The 'last_price' entry of [get_latest_stock_data]; building the
    result reads all five columns of the last row. *)
Definition get_latest_stock_data
  (provider : string -> string -> string -> result DataFrame)
  (current_time : Q) (symbol : string) (c : t) : t * result Q :=
  match get_stock_historical_data provider current_time symbol "1d" "1m" c with
  | (c', Raise e) => (c', Raise e)
  | (c', Ok stock_data) =>
      if empty stock_data
      then (c', Raise (ValueError ("No data available for " ++ symbol)))
      else if negb (has_Close stock_data) then (c', Raise (KeyError "Close"))
      else if negb (has_Open stock_data) then (c', Raise (KeyError "Open"))
      else if negb (has_High stock_data) then (c', Raise (KeyError "High"))
      else if negb (has_Low stock_data) then (c', Raise (KeyError "Low"))
      else if negb (has_Volume stock_data) then (c', Raise (KeyError "Volume"))
      else (c', Ok (StockAnalyzer.latest_Close stock_data))
  end.

(** Every cached frame is non-empty. *)
Definition cache_ok (c : t) : Prop :=
  forall k data, cache c k = Some data -> empty data = false.

End MarketData.

(* ------------------------------------------------------------------ *)
(** * Rational comparisons *)

Lemma Qlt_bool_iff (x y : Q) : Qlt_bool x y = true <-> x < y.
Proof.
  unfold Qlt_bool. rewrite negb_true_iff. split; intro H.
  - apply Qnot_le_lt. intro L. apply Qle_bool_iff in L. congruence.
  - destruct (Qle_bool y x) eqn:E; [|reflexivity].
    apply Qle_bool_iff in E. exfalso. exact (Qlt_not_le _ _ H E).
Qed.

Lemma Qlt_bool_false (x y : Q) : Qlt_bool x y = false <-> y <= x.
Proof.
  unfold Qlt_bool. rewrite negb_false_iff. apply Qle_bool_iff.
Qed.

(* ------------------------------------------------------------------ *)
(** * Properties of the shorting score *)

Section Score.

Import StockAnalyzer.

Lemma points_nonneg (b : bool) (n : Z) : (0 <= n)%Z -> (0 <= points b n)%Z.
Proof. destruct b; simpl; lia. Qed.

Lemma volatility_points_nonneg (df : DataFrame) (v : Z) :
  volatility_points df = Ok v -> (0 <= v)%Z.
Proof.
  unfold volatility_points, col_Close, column.
  destruct (Nat.leb 5 (len df)); [destruct (has_Close df)|]; simpl;
    intro H; inversion H; subst; try apply points_nonneg; lia.
Qed.

Lemma recent_gain_points_nonneg (df : DataFrame) (g : Z) :
  recent_gain_points df = Ok g -> (0 <= g)%Z.
Proof.
  unfold recent_gain_points, col_Close, column.
  destruct (Nat.leb 3 (len df)); [destruct (has_Close df)|]; simpl;
    intro H; inversion H; subst; try apply points_nonneg; lia.
Qed.

Lemma volume_points_nonneg (df : DataFrame) : (0 <= volume_points df)%Z.
Proof.
  unfold volume_points.
  destruct (has_Volume df && Nat.leb 5 (len df)); [apply points_nonneg|]; lia.
Qed.

(** With the indicator columns computed the frame has a Close column, so
    neither of the two later reads of it can raise. *)
Lemma indicators_have_close (df : DataFrame) (ind : Indicators) :
  _calculate_indicators df = Some ind -> has_Close df = true.
Proof.
  unfold _calculate_indicators, col_Close, column.
  destruct (has_Close df); [reflexivity|simpl; discriminate].
Qed.

Lemma indicators_SMA20 (df : DataFrame) (ind : Indicators) :
  _calculate_indicators df = Some ind ->
  SMA20 ind = rolling_mean 20 (map bar_Close (rows df)).
Proof.
  unfold _calculate_indicators, col_Close, col_High, col_Low, column.
  destruct (has_Close df), (has_High df), (has_Low df); simpl;
    intro H; inversion H; reflexivity.
Qed.

Lemma last_map_seq {A} (f : nat -> A) (m : nat) (d : A) :
  last (map f (seq 0 (S m))) d = f m.
Proof.
  rewrite seq_S, map_app. cbn [map Nat.add]. apply last_last.
Qed.

(** The latest value of a rolling mean is the mean of the last [w]
    entries once there are [w] of them, and NaN before. *)
Lemma rolling_mean_latest (w : nat) (xs : list Q) :
  last_x (rolling_mean w xs)
  = if Nat.leb w (List.length xs) && negb (Nat.eqb (List.length xs) 0)
    then Fin (Qmean (lastn w xs))
    else NaN.
Proof.
  unfold last_x, rolling_mean, lastn.
  destruct (List.length xs) as [|m] eqn:En.
  - rewrite andb_false_r. reflexivity.
  - rewrite last_map_seq. cbn [Nat.eqb negb]. rewrite andb_true_r.
    destruct (Nat.leb w (S m)) eqn:Ew; [|reflexivity].
    apply Nat.leb_le in Ew. f_equal. f_equal.
    apply firstn_all2. rewrite length_skipn. lia.
Qed.

(** C7. For every frame of bars, empty or not, the shorting score is an
    integer between 0 and 100, and whenever the computation raises the
    score returned is 0. *)
Theorem get_shorting_score_range (df : DataFrame) :
  (0 <= get_shorting_score df <= 100)%Z
  /\ (forall e, get_shorting_score_body df = Raise e ->
                get_shorting_score df = 0%Z).
Proof.
  split.
  - unfold get_shorting_score, get_shorting_score_body.
    destruct (empty df); [lia|].
    destruct (volatility_points df) as [v|e]; cbn [rbind]; [|lia].
    destruct (recent_gain_points df) as [g|e]; cbn [rbind]; lia.
  - intros e H. unfold get_shorting_score. rewrite H. reflexivity.
Qed.

(** A frame on which the computation does raise (no Close column). *)
Lemma get_shorting_score_range_witness :
  get_shorting_score_body Examples.no_close_frame = Raise (KeyError "Close")
  /\ get_shorting_score Examples.no_close_frame = 0%Z.
Proof.
  assert (H : get_shorting_score_body Examples.no_close_frame
              = Raise (KeyError "Close")) by (vm_compute; reflexivity).
  split; [exact H|].
  exact (proj2 (get_shorting_score_range Examples.no_close_frame) _ H).
Defined.

(** C8, as the spec states it, fails: the latest Close of this frame is
    below both moving averages and its RSI is above 70, yet the score is
    75, because the 20-bar average is not below the 50-bar one. *)
Lemma close_below_both_averages_scores_75 :
  exists ind,
    _calculate_indicators Examples.spike_then_climb = Some ind
    /\ xlt (Fin (latest_Close Examples.spike_then_climb)) (last_x (SMA20 ind)) = true
    /\ xlt (Fin (latest_Close Examples.spike_then_climb)) (last_x (SMA50 ind)) = true
    /\ xgt (last_x (RSI ind)) (Fin 70) = true
    /\ get_shorting_score Examples.spike_then_climb = 75%Z
    /\ ~ (90 <= get_shorting_score Examples.spike_then_climb)%Z.
Proof.
  eexists. split; [vm_compute; reflexivity|].
  repeat split; try (vm_compute; reflexivity).
  vm_compute. intro H. apply H. reflexivity.
Qed.

(** C8 (amended). When the latest Close is below the 20-bar average, the
    20-bar average is below the 50-bar average and the latest RSI is above
    70, the score is at least 90. *)
Theorem bearish_overbought_score_ge_90 (df : DataFrame) (ind : Indicators) :
  _calculate_indicators df = Some ind ->
  xlt (Fin (latest_Close df)) (last_x (SMA20 ind)) = true ->
  xlt (last_x (SMA20 ind)) (last_x (SMA50 ind)) = true ->
  xgt (last_x (RSI ind)) (Fin 70) = true ->
  (90 <= get_shorting_score df)%Z.
Proof.
  intros Hind Hc Hs Hr.
  assert (Hne : empty df = false).
  { unfold empty, len. rewrite (indicators_have_close _ _ Hind).
    rewrite !orb_true_r. simpl. rewrite orb_false_r.
    destruct (rows df) as [|b tl] eqn:E; [|reflexivity].
    exfalso. rewrite (indicators_SMA20 _ _ Hind), E in Hc.
    simpl in Hc. discriminate. }
  unfold get_shorting_score, get_shorting_score_body.
  rewrite Hne, Hind.
  destruct (volatility_points df) as [v|e] eqn:Ev; cbn [rbind].
  2:{ unfold volatility_points, col_Close, column in Ev.
      rewrite (indicators_have_close _ _ Hind) in Ev.
      destruct (Nat.leb 5 (len df)); discriminate. }
  destruct (recent_gain_points df) as [g|e] eqn:Eg; cbn [rbind].
  2:{ unfold recent_gain_points, col_Close, column in Eg.
      rewrite (indicators_have_close _ _ Hind) in Eg.
      destruct (Nat.leb 3 (len df)); discriminate. }
  pose proof (volatility_points_nonneg _ _ Ev).
  pose proof (recent_gain_points_nonneg _ _ Eg).
  pose proof (volume_points_nonneg df).
  unfold trend_points, momentum_points. rewrite Hc, Hs, Hr. cbn [points].
  lia.
Qed.

Lemma bearish_overbought_score_ge_90_witness :
  (90 <= get_shorting_score Examples.step_down_then_climb)%Z.
Proof.
  refine (bearish_overbought_score_ge_90 Examples.step_down_then_climb
            (mkInd (rolling_mean 20 (map bar_Close (rows Examples.step_down_then_climb)))
                   (rolling_mean 50 (map bar_Close (rows Examples.step_down_then_climb)))
                   (rsi_series (map bar_Close (rows Examples.step_down_then_climb))))
            _ _ _ _); vm_compute; reflexivity.
Defined.

End Score.

(* ------------------------------------------------------------------ *)
(** * Properties of the position lifecycle *)

Section Engine.

Import TradingEngine.

Lemma Qis_zero_pos (x : Q) : 0 < x -> Qis_zero x = false.
Proof.
  intro H. unfold Qis_zero. destruct (Qeq_bool x 0) eqn:E; [|reflexivity].
  apply Qeq_bool_iff in E. rewrite E in H. exfalso. exact (Qlt_irrefl _ H).
Qed.

(** Truncation of a value below one is not positive. *)
Lemma py_int_lt_1 (x : Q) : x < 1 -> (py_int x <= 0)%Z.
Proof.
  destruct x as [n d]. unfold Qlt, py_int. simpl. intro H.
  destruct (Z_lt_le_dec n 0) as [Hn|Hn].
  - replace n with (- (- n))%Z by lia. rewrite Z.quot_opp_l by lia.
    pose proof (Z.quot_pos (- n) (Z.pos d)). lia.
  - rewrite Z.quot_small; lia.
Qed.


(** What a successful sizing makes [open_position] do, whatever the
    brokerage answers. *)
Lemma open_position_run (self : t) (symbol : string) (size price : Q)
  (st : State) (q : Z) :
  compute_quantity size price = Ok q -> (0 < q)%Z ->
  open_position self symbol size price st =
  let pos :=
    mkPosition symbol (snd (open_fill self symbol q price)) q size
      (match fst (open_fill self symbol q price) with
       | Some o => id o
       | None => None
       end)
      (real_trading_enabled self && is_some (fst (open_fill self symbol q price))) in
  (Outcome.opened st pos, Ok pos).
Proof.
  intros Hq Hpos. unfold open_position, bind, lift. rewrite Hq.
  destruct (q <=? 0)%Z eqn:E; [apply Z.leb_le in E; lia|].
  destruct (open_fill self symbol q price) as [oi fill]. reflexivity.
Qed.

(** C4. When the computed quantity is zero or negative, [open_position]
    raises the size error and leaves the whole state as it was: no
    position stored, no transaction appended.  For a positive price above
    the requested size the quantity is such. *)
Theorem open_position_invalid_size (self : t) (symbol : string)
  (size price : Q) (st : State) :
  (forall q, compute_quantity size price = Ok q -> (q <= 0)%Z ->
             open_position self symbol size price st = (st, Raise size_too_small))
  /\ (0 < price -> size < price ->
      exists q, compute_quantity size price = Ok q /\ (q <= 0)%Z).
Proof.
  split.
  - intros q Hq Hle. unfold open_position, bind, lift. rewrite Hq.
    apply Z.leb_le in Hle. rewrite Hle. reflexivity.
  - intros Hp Hlt. unfold compute_quantity. rewrite (Qis_zero_pos _ Hp).
    eexists. split; [reflexivity|]. apply py_int_lt_1.
    apply Qlt_shift_div_r; [exact Hp|]. rewrite Qmult_1_l. exact Hlt.
Qed.

(** A request of 40 at a price of 50. *)
Lemma open_position_invalid_size_witness :
  open_position (Examples.sim_engine 50) "BHP" 40 50 Examples.flat_state
  = (Examples.flat_state, Raise size_too_small).
Proof.
  destruct (open_position_invalid_size (Examples.sim_engine 50) "BHP" 40 50
              Examples.flat_state) as [Hfail Hq].
  destruct Hq as [q [Hq Hle]]; [reflexivity | reflexivity |].
  exact (Hfail q Hq Hle).
Defined.




(** An order passed a price never leaves the price unset. *)
Lemma order_fill_some (svc : TradingService) (placed : result (option Order))
  (price : Q) :
  snd (order_fill svc placed (Some price)) <> Ok None.
Proof.
  unfold order_fill.
  destruct placed as [[o|]|e]; cbn [snd]; try discriminate.
  destruct (String.eqb (status o) "filled"); cbn [snd].
  { destruct (filled_avg_price o); cbn; discriminate. }
  destruct (is_pending (status o)); cbn [snd]; try discriminate.
  destruct (wait_for_order_fill svc (id o)) as [[f|]|e]; cbn [snd];
    try discriminate.
  destruct (String.eqb (status f) "filled"); cbn [snd]; try discriminate.
  destruct (filled_avg_price f); cbn; discriminate.
Qed.

(** The price-finding block writes nothing. *)
Lemma close_fill_pure (self : t) (position : Position) (cp : option Q) :
  exists r, forall st, close_fill self position cp st = (st, r).
Proof.
  unfold close_fill, fetch_if_none, bind, lift, ret.
  destruct (real_trading_enabled self), (trading_service self) as [svc|],
    (real_trade position);
    try (destruct cp as [p|];
         [|destruct (get_latest_stock_data (data_service self) (symbol position))];
         eexists; intro; reflexivity).
  destruct (order_fill svc _ cp) as [oi [p|e]].
  - eexists; intro; reflexivity.
  - destruct cp as [p|];
      [|destruct (get_latest_stock_data (data_service self) (symbol position))];
      eexists; intro; reflexivity.
Qed.

(** What [close_position] does, by the outcome of the price-finding
    block. *)
Lemma close_position_run (self : t) (position : Position) (reason : string)
  (cp : option Q) (st : State) :
  close_position self position reason cp st =
  match snd (close_fill self position cp st) with
  | Ok (oi, Some fill) =>
      (Outcome.closed st position reason fill (real_trade position && is_some oi),
       Ok (Outcome.pnl_of position fill))
  | Ok (oi, None) => (Outcome.called st position reason, Raise TypeError)
  | Raise e => (Outcome.called st position reason, Raise e)
  end.
Proof.
  destruct (close_fill_pure self position cp) as [r Hr].
  unfold close_position, bind, get, Session.record_close_call, modify.
  rewrite !Hr. cbn [snd].
  destruct r as [[oi [fill|]]|e]; reflexivity.
Qed.

(** With a price passed in, the block ends with a price: the one passed in
    unless an order went to the brokerage. *)
Lemma close_fill_some (self : t) (position : Position) (price : Q) (st : State) :
  exists oi fill,
    close_fill self position (Some price) st = (st, Ok (oi, Some fill))
    /\ (Outcome.sends_order self position = true
        \/ (oi = None /\ fill = price)).
Proof.
  unfold Outcome.sends_order, close_fill, fetch_if_none, bind, lift, ret.
  destruct (real_trading_enabled self), (trading_service self) as [svc|],
    (real_trade position); cbn [is_some andb];
    try (exists None, price; split; [reflexivity|right; split; reflexivity]).
  pose proof (order_fill_some svc
                (close_short_position svc (symbol position) (quantity position))
                price) as Hne.
  destruct (order_fill svc _ (Some price)) as [oi [[p|]|e]]; cbn [snd] in Hne.
  - exists oi, p. split; [reflexivity|left; reflexivity].
  - exfalso. apply Hne. reflexivity.
  - exists oi, price. split; [reflexivity|left; reflexivity].
Qed.



(** The spec's example: entry 50, 20 shares, close at 45 gives P/L 100 and
    a balance of 10100. *)
Example close_50_20_at_45 :
  exists st',
    close_position (Examples.sim_engine 45) Examples.short_50_20 "Take profit"
                   (Some 45) (Examples.short_state Examples.short_50_20)
    = (st', Ok 100)
    /\ account_balance st' = 10100
    /\ current_balance (db_account_settings st') = 10100
    /\ current_position st' = None.
Proof.
  eexists. split; [vm_compute; reflexivity|]. repeat split.
Qed.





(** C6 fails on the real-trading path.  Real trading on, a position backed
    by an order, no price passed, and the closing order comes back
    canceled: the price is never fetched, although the market-data service
    would answer 45; the P/L computation raises and nothing is settled. *)
Theorem close_without_price_on_canceled_order_raises :
  get_latest_stock_data (data_service (Examples.real_engine 45)) "BHP" = Ok 45
  /\ close_position (Examples.real_engine 45) Examples.real_short_50_20
                    "Take profit" None
                    (Examples.short_state Examples.real_short_50_20)
     = (Outcome.called (Examples.short_state Examples.real_short_50_20)
                       Examples.real_short_50_20 "Take profit",
        Raise TypeError).
Proof.
  split; [reflexivity|]. vm_compute. reflexivity.
Qed.

(** On the simulated path, and on the real path when the brokerage call
    raises, an omitted price is fetched from the market-data service. *)
Lemma close_without_price_fetches_when_simulated (self : t)
  (position : Position) (reason : string) (st : State) (p : Q) :
  Outcome.sends_order self position = false ->
  get_latest_stock_data (data_service self) (symbol position) = Ok p ->
  close_position self position reason None st
  = (Outcome.closed st position reason p false, Ok (Outcome.pnl_of position p)).
Proof.
  intros Hs Hd. rewrite close_position_run.
  unfold Outcome.sends_order in Hs.
  unfold close_fill, fetch_if_none, bind, lift, ret.
  destruct (real_trading_enabled self), (trading_service self) as [svc|],
    (real_trade position); try discriminate Hs;
    rewrite Hd; cbn [snd is_some]; rewrite ?andb_false_r; reflexivity.
Qed.

(** C9, as the spec states it, fails: the transaction appended by an open
    carries the P/L 0, not a null. *)
Lemma open_transaction_pnl_is_zero :
  exists st' pos t,
    open_position (Examples.sim_engine 50) "BHP" 1000 50 Examples.flat_state
    = (st', Ok pos)
    /\ trading_history st' = [t]
    /\ Action t = "Short Open"%string
    /\ P_L t = Some 0
    /\ P_L t <> None.
Proof.
  do 3 eexists. split; [vm_compute; reflexivity|].
  cbn. repeat split. discriminate.
Qed.

(** C9 (amended). Every successful open appends, to both histories, one
    "Short Open" transaction whose P/L is 0; every successful close
    appends one "Short Close" transaction whose P/L is
    (entry_price - close price) x quantity, the close price being the
    price recorded in the transaction. *)
Theorem transaction_pnl (self : t) (st st' : State) :
  (forall symbol size price pos,
      open_position self symbol size price st = (st', Ok pos) ->
      exists t,
        trading_history st' = trading_history st ++ [t]
        /\ db_trading_history st' = db_trading_history st ++ [t]
        /\ Action t = "Short Open"%string
        /\ P_L t = Some 0)
  /\ (forall position reason cp pnl,
         close_position self position reason cp st = (st', Ok pnl) ->
         exists t,
           trading_history st' = trading_history st ++ [t]
           /\ db_trading_history st' = db_trading_history st ++ [t]
           /\ Action t = "Short Close"%string
           /\ P_L t = Some ((entry_price position - Price t)
                            * inject_Z (quantity position))
           /\ P_L t = Some pnl).
Proof.
  split.
  - intros symbol size price pos H.
    destruct (compute_quantity size price) as [q|e] eqn:Hq.
    2:{ unfold open_position, bind, lift in H. rewrite Hq in H. discriminate. }
    destruct (Z_lt_le_dec 0 q) as [Hpos|Hle].
    2:{ unfold open_position, bind, lift in H. rewrite Hq in H.
        apply Z.leb_le in Hle. rewrite Hle in H. discriminate. }
    rewrite (open_position_run self symbol size price st q Hq Hpos) in H.
    cbv zeta in H. inversion H; subst; clear H.
    eexists. repeat split.
  - intros position reason cp pnl H.
    rewrite close_position_run in H.
    destruct (snd (close_fill self position cp st)) as [[oi [fill|]]|e];
      inversion H; subst; clear H.
    eexists. repeat split.
Qed.

(** Closing the 20 shares shorted at 50 on a stop loss at 55. *)
Lemma transaction_pnl_witness :
  exists t,
    trading_history
      (Outcome.closed (Examples.short_state Examples.short_50_20)
         Examples.short_50_20 "Stop loss" 55 false)
    = trading_history (Examples.short_state Examples.short_50_20) ++ [t]
    /\ Action t = "Short Close"%string
    /\ P_L t = Some ((entry_price Examples.short_50_20 - Price t)
                     * inject_Z (quantity Examples.short_50_20)).
Proof.
  destruct (proj2 (transaction_pnl (Examples.sim_engine 55)
                     (Examples.short_state Examples.short_50_20)
                     (Outcome.closed (Examples.short_state Examples.short_50_20)
                        Examples.short_50_20 "Stop loss" 55 false))
              Examples.short_50_20 "Stop loss"%string (Some 55)
              (Outcome.pnl_of Examples.short_50_20 55) eq_refl)
    as (t & Ht & _ & Ha & Hp & _).
  exists t. split; [exact Ht|]. split; [exact Ha|]. exact Hp.
Defined.

End Engine.

(* ------------------------------------------------------------------ *)
(** * Properties of the trading logic *)

Section Scheduler.

Import TradingEngine App.



(** An open either raises before it writes anything or stores the
    position it returns. *)
Lemma open_position_cases (self : t) (sym : string) (size price : Q)
  (st : State) :
  (exists e, open_position self sym size price st = (st, Raise e))
  \/ (exists pos, open_position self sym size price st
                  = (Outcome.opened st pos, Ok pos)
                  /\ symbol pos = sym).
Proof.
  destruct (compute_quantity size price) as [q|e] eqn:Hq.
  2:{ left. exists e. unfold open_position, bind, lift. rewrite Hq. reflexivity. }
  destruct (Z_lt_le_dec 0 q) as [Hpos|Hle].
  - right. rewrite (open_position_run self sym size price st q Hq Hpos).
    cbv zeta. eexists. split; reflexivity.
  - left. exists size_too_small. unfold open_position, bind, lift. rewrite Hq.
    apply Z.leb_le in Hle. rewrite Hle. reflexivity.
Qed.




Example take_profit_tick_closes_once :
  map call_reason
      (close_calls (fst (trading_logic (Examples.market_at 48)
                           (Examples.sim_engine 48) 10 true
                           (Examples.short_state Examples.short_50_20))))
  = ["Take profit"%string].
Proof. vm_compute. reflexivity. Qed.

(** The test that starts a new cycle does not look at the clock once no
    position is open. *)
Lemma new_cycle_test_flat (tsc interval : Q) (stocks : list WatchItem) :
  new_cycle_test tsc interval None stocks = nonempty stocks.
Proof.
  unfold new_cycle_test. cbn [is_some negb]. rewrite orb_true_r. reflexivity.
Qed.

(** The body of a new cycle overwrites last_cycle before it reads
    anything. *)
Lemma new_cycle_forgets_last_cycle (ds : DataService) (engine : t) (now t : Q)
  (st : State) :
  new_cycle ds engine now (Outcome.with_last_cycle t st)
  = new_cycle ds engine now st.
Proof.
  unfold new_cycle, bind, Session.set_last_cycle, modify, Outcome.with_last_cycle.
  cbn [db_current_position db_trading_history db_account_settings
       current_position account_balance trading_history last_cycle
       cycle_interval stock_list close_calls].
  reflexivity.
Qed.

(** C2, as the spec states it, fails: ten seconds after the last cycle
    started, with an hourly cycle, no open position and one symbol on the
    watch list that scores 60, the tick opens a position (and resets
    last_cycle). *)
Lemma tick_before_interval_opens :
  current_position Examples.flat_state = None
  /\ 10 - last_cycle Examples.flat_state < cycle_interval Examples.flat_state
  /\ exists st' pos,
      trading_logic (Examples.market_at 50) (Examples.sim_engine 50) 10 true
                    Examples.flat_state = (st', Ok tt)
      /\ current_position st' = Some pos
      /\ symbol pos = "BHP"%string
      /\ quantity pos = 20%Z
      /\ entry_price pos = 50
      /\ last_cycle st' = 10.
Proof.
  split; [reflexivity|]. split; [reflexivity|].
  do 2 eexists. split; [vm_compute; reflexivity|].
  cbn. repeat split.
Qed.

(** C2 (amended). On a tick inside trading hours with no open position and
    a non-empty watch list, the selection cycle runs whatever the time
    since last_cycle: the outcome of the tick does not depend on
    last_cycle, and last_cycle is reset to the time of the tick.  A
    position is opened only for a watch-list symbol that the scan selected
    with a score of at least 60. *)
Theorem flat_tick_runs_cycle (ds : DataService) (engine : t) (now : Q)
  (st : State) :
  current_position st = None ->
  stock_list st <> [] ->
  (forall t, trading_logic ds engine now true (Outcome.with_last_cycle t st)
             = trading_logic ds engine now true st)
  /\ last_cycle (fst (trading_logic ds engine now true st)) = now
  /\ (forall pos,
         current_position (fst (trading_logic ds engine now true st)) = Some pos ->
         exists stock s,
           find_best ds (stock_list st) = (Some stock, s)
           /\ (60 <= s)%Z
           /\ symbol pos = item_symbol stock).
Proof.
  intros Hcur Hne.
  assert (Hn : nonempty (stock_list st) = true).
  { destruct (stock_list st); [contradiction|reflexivity]. }
  assert (Hrun : forall t,
             trading_logic ds engine now true (Outcome.with_last_cycle t st)
             = try_except (new_cycle ds engine now) (fun _ => ret tt) st).
  { intro t. unfold trading_logic, in_hours_logic, try_except, bind, get.
    rewrite <- (new_cycle_forgets_last_cycle ds engine now t st).
    replace (current_position (Outcome.with_last_cycle t st)) with (@None Position)
      by (symmetry; exact Hcur).
    rewrite new_cycle_test_flat.
    replace (stock_list (Outcome.with_last_cycle t st)) with (stock_list st)
      by reflexivity.
    rewrite Hn. reflexivity. }
  assert (Hst : Outcome.with_last_cycle (last_cycle st) st = st)
    by (destruct st; reflexivity).
  assert (Hrun' : trading_logic ds engine now true st
                  = try_except (new_cycle ds engine now) (fun _ => ret tt) st).
  { rewrite <- Hst at 1. apply Hrun. }
  split; [intro t; rewrite Hrun, Hrun'; reflexivity|].
  rewrite Hrun'. clear Hrun Hrun' Hst.
  cbv [try_except new_cycle bind get Session.set_last_cycle modify lift
       DatabaseManager.get_account_settings].
  cbn [stock_list account_balance db_account_settings].
  destruct (find_best ds (stock_list st)) as [[stock|] s].
  2:{ cbn [fst last_cycle current_position]. split; [reflexivity|].
      intros pos H. rewrite Hcur in H. discriminate. }
  destruct (60 <=? s)%Z eqn:Es.
  2:{ cbn [fst last_cycle current_position]. split; [reflexivity|].
      intros pos H. rewrite Hcur in H. discriminate. }
  apply Z.leb_le in Es.
  destruct (get_latest_stock_data ds (item_symbol stock)) as [price|e].
  2:{ cbn [fst last_cycle current_position]. split; [reflexivity|].
      intros pos H. rewrite Hcur in H. discriminate. }
  match goal with
  | |- context [open_position engine ?sy ?sz ?pr ?s0] =>
      destruct (open_position_cases engine sy sz pr s0)
        as [[e He]|[p [Hp Hsym]]]
  end.
  - rewrite He. cbn [fst last_cycle current_position]. split; [reflexivity|].
    intros pos H. rewrite Hcur in H. discriminate.
  - rewrite Hp. unfold ret.
    cbn [fst last_cycle current_position Outcome.opened].
    split; [reflexivity|].
    intros pos H. inversion H; subst. exists stock, s. repeat split; assumption.
Qed.

(** The tick of the example above, and the same tick with last_cycle moved
    to five seconds before it. *)
Lemma flat_tick_runs_cycle_witness :
  trading_logic (Examples.market_at 50) (Examples.sim_engine 50) 10 true
                (Outcome.with_last_cycle 5 Examples.flat_state)
  = trading_logic (Examples.market_at 50) (Examples.sim_engine 50) 10 true
                  Examples.flat_state.
Proof.
  refine (proj1 (flat_tick_runs_cycle (Examples.market_at 50)
                   (Examples.sim_engine 50) 10 Examples.flat_state
                   eq_refl _) 5).
  discriminate.
Defined.

End Scheduler.

(* ------------------------------------------------------------------ *)
(** * The ledger across calls and ticks *)

Section LedgerFacts.

Import TradingEngine App Ledger.


Lemma evolves_trans (o : bool) (a b c : State) :
  evolves o a b -> evolves o b c -> evolves o a c.
Proof.
  intros Hab Hbc. induction Hbc.
  - exact Hab.
  - apply ev_opened; assumption.
  - apply ev_closed. exact IHHbc.
  - apply ev_called. exact IHHbc.
  - apply ev_cycle. exact IHHbc.
Qed.

Lemma open_position_evolves (self : t) (sym : string) (size price : Q)
  (st0 st : State) :
  evolves true st0 st ->
  evolves true st0 (fst (open_position self sym size price st)).
Proof.
  intro H.
  destruct (open_position_cases self sym size price st)
    as [[e He]|[p [Hp _]]].
  - rewrite He. exact H.
  - rewrite Hp. apply ev_opened; [reflexivity|exact H].
Qed.

Lemma close_position_evolves (o : bool) (self : t) (p : Position)
  (reason : string) (cp : option Q) (st0 st : State) :
  evolves o st0 st -> evolves o st0 (fst (close_position self p reason cp st)).
Proof.
  intro H. rewrite close_position_run.
  destruct (snd (close_fill self p cp st)) as [[oi [fill|]]|e]; cbn [fst].
  - apply ev_closed. exact H.
  - apply ev_called. exact H.
  - apply ev_called. exact H.
Qed.

Lemma set_last_cycle_evolves (o : bool) (t : Q) (st0 st : State) :
  evolves o st0 st -> evolves o st0 (fst (Session.set_last_cycle t st)).
Proof. intro H. exact (ev_cycle o st0 st t H). Qed.

Lemma manage_position_evolves (o : bool) (ds : DataService) (engine : t)
  (now tsc : Q) (position : Position) (st0 st : State) :
  evolves o st0 st ->
  evolves o st0 (fst (manage_position ds engine now tsc position st)).
Proof.
  intro H.
  unfold manage_position, bind, lift, DatabaseManager.get_account_settings, get.
  destruct (get_latest_stock_data ds (symbol position)) as [cp|e]; [|exact H].
  destruct (Qle_bool cp _).
  - pose proof (close_position_evolves o engine position "Take profit" (Some cp)
                  st0 st H) as H1.
    destruct (close_position engine position "Take profit" (Some cp) st)
      as [st1 [pnl|e]]; cbn [fst] in H1; [|exact H1].
    destruct (Qle_bool _ cp).
    + pose proof (close_position_evolves o engine position "Stop loss" (Some cp)
                    st0 st1 H1) as H2.
      destruct (close_position engine position "Stop loss" (Some cp) st1)
        as [st2 [pnl2|e]]; exact H2.
    + destruct (Qle_bool _ _ && is_some _); [|exact H1].
      pose proof (close_position_evolves o engine position "End of cycle rotation"
                    (Some cp) st0 st1 H1) as H2.
      destruct (close_position engine position "End of cycle rotation" (Some cp) st1)
        as [st2 [pnl2|e]]; cbn [fst] in H2; [|exact H2].
      apply set_last_cycle_evolves. exact H2.
  - unfold ret at 1.
    destruct (Qle_bool _ cp).
    + pose proof (close_position_evolves o engine position "Stop loss" (Some cp)
                    st0 st H) as H2.
      destruct (close_position engine position "Stop loss" (Some cp) st)
        as [st2 [pnl2|e]]; exact H2.
    + destruct (Qle_bool _ _ && is_some _); [|exact H].
      pose proof (close_position_evolves o engine position "End of cycle rotation"
                    (Some cp) st0 st H) as H2.
      destruct (close_position engine position "End of cycle rotation" (Some cp) st)
        as [st2 [pnl2|e]]; cbn [fst] in H2; [|exact H2].
      apply set_last_cycle_evolves. exact H2.
Qed.

Lemma new_cycle_evolves (ds : DataService) (engine : t) (now : Q)
  (st0 st : State) :
  evolves true st0 st -> evolves true st0 (fst (new_cycle ds engine now st)).
Proof.
  intro H. apply (ev_cycle true st0 st now) in H.
  cbv [new_cycle bind get Session.set_last_cycle modify lift try_except
       DatabaseManager.get_account_settings].
  cbn [stock_list account_balance db_account_settings].
  destruct (find_best ds (stock_list st)) as [[stock|] s]; [|exact H].
  destruct (60 <=? s)%Z; [|exact H].
  destruct (get_latest_stock_data ds (item_symbol stock)) as [price|e]; [|exact H].
  match goal with
  | |- context [open_position engine ?sy ?sz ?pr ?s0] =>
      pose proof (open_position_evolves engine sy sz pr st0 s0 H) as H1;
      destruct (open_position engine sy sz pr s0) as [s1 [p|e]]
  end; exact H1.
Qed.

(** With a position open, or outside trading hours, a run of the trading
    logic stores no new position. *)
Lemma trading_logic_evolves_closing (o : bool) (ds : DataService) (engine : t)
  (now : Q) (hours : bool) (st0 st : State) :
  hours = false \/ current_position st <> None ->
  evolves o st0 st -> evolves o st0 (fst (trading_logic ds engine now hours st)).
Proof.
  intros Hc H. unfold trading_logic. destruct hours.
  - destruct Hc as [Hc|Hc]; [discriminate|].
    unfold in_hours_logic, try_except, bind, get.
    destruct (current_position st) as [position|]; [|contradiction].
    pose proof (manage_position_evolves o ds engine now (now - last_cycle st)
                  position st0 st H) as H1.
    destruct (manage_position ds engine now (now - last_cycle st) position st)
      as [s1 [u|e]]; exact H1.
  - unfold out_of_hours_logic, try_except, bind, get, lift.
    destruct (current_position st) as [position|]; [|exact H].
    destruct (get_latest_stock_data ds (symbol position)) as [cp|e]; [|exact H].
    pose proof (close_position_evolves o engine position "Market closed" (Some cp)
                  st0 st H) as H1.
    destruct (close_position engine position "Market closed" (Some cp) st)
      as [s1 [u|e]]; exact H1.
Qed.

Lemma trading_logic_evolves (ds : DataService) (engine : t) (now : Q)
  (hours : bool) (st0 st : State) :
  evolves true st0 st ->
  evolves true st0 (fst (trading_logic ds engine now hours st)).
Proof.
  intro H.
  destruct hours; [|apply trading_logic_evolves_closing; [left; reflexivity|exact H]].
  destruct (current_position st) as [position|] eqn:Hcur.
  - apply trading_logic_evolves_closing; [right; rewrite Hcur; discriminate|exact H].
  - unfold trading_logic, in_hours_logic, try_except, bind, get. rewrite Hcur.
    destruct (new_cycle_test _ _ None _); [|exact H].
    pose proof (new_cycle_evolves ds engine now st0 st H) as H1.
    destruct (new_cycle ds engine now st) as [s1 [u|e]]; exact H1.
Qed.

Lemma perform_evolves (st0 st : State) (a : action) :
  evolves true st0 st -> evolves true st0 (perform st a).
Proof.
  intro H. destruct a; cbn [perform].
  - apply open_position_evolves, H.
  - apply close_position_evolves, H.
  - apply trading_logic_evolves, H.
Qed.

Lemma perform_all_evolves (acts : list action) (st : State) :
  evolves true st (perform_all st acts).
Proof.
  unfold perform_all.
  assert (G : forall acts s, evolves true st s ->
                             evolves true st (fold_left perform acts s)).
  { induction acts0 as [|a acts0 IH]; intros s Hs; [exact Hs|].
    cbn [fold_left]. apply IH, perform_evolves, Hs. }
  apply G, ev_refl.
Qed.

End LedgerFacts.

Section LedgerInvariants.

Import TradingEngine App Ledger.





(** X4. The engine and the trading logic never write the risk settings,
    the initial balance, the cycle interval or the watch list. *)
Theorem settings_are_never_written (acts : list action) (st : State) :
  initial_balance (db_account_settings (perform_all st acts))
  = initial_balance (db_account_settings st)
  /\ take_profit_pct (db_account_settings (perform_all st acts))
     = take_profit_pct (db_account_settings st)
  /\ stop_loss_pct (db_account_settings (perform_all st acts))
     = stop_loss_pct (db_account_settings st)
  /\ position_size_pct (db_account_settings (perform_all st acts))
     = position_size_pct (db_account_settings st)
  /\ cycle_interval (perform_all st acts) = cycle_interval st
  /\ stock_list (perform_all st acts) = stock_list st.
Proof.
  induction (perform_all_evolves acts st) as
    [|st' p _ _ IH|st' p reason fill real _ IH|st' p reason _ IH|st' t _ IH];
    [repeat split|exact IH|exact IH|exact IH|exact IH].
Qed.

(** X5. While a position is open, and outside trading hours, a run of the
    trading logic opens nothing: every row it adds is a "Short Close", and
    the position is afterwards either the same or cleared. *)
Theorem tick_with_position_only_closes (ds : DataService) (engine : t)
  (now : Q) (hours : bool) (st : State) :
  hours = false \/ current_position st <> None ->
  exists added,
    trading_history (fst (trading_logic ds engine now hours st))
    = trading_history st ++ added
    /\ Forall (fun r => Action r = "Short Close"%string) added
    /\ (current_position (fst (trading_logic ds engine now hours st))
        = current_position st
        \/ current_position (fst (trading_logic ds engine now hours st)) = None).
Proof.
  intro Hc.
  induction (trading_logic_evolves_closing false ds engine now hours st st Hc
               (ev_refl false st)) as
    [|st' p Hopen _ _|st' p reason fill real _ (added & I1 & I2 & I3)
     |st' p reason _ IH|st' t _ IH].
  - exists []. rewrite app_nil_r. repeat split; [constructor|left; reflexivity].
  - discriminate.
  - exists (added ++ [Outcome.close_transaction p reason fill real]).
    cbn [Outcome.closed trading_history current_position].
    rewrite I1, app_assoc. split; [reflexivity|]. split; [|right; reflexivity].
    apply Forall_app. split; [exact I2|]. constructor; [reflexivity|constructor].
  - exact IH.
  - exact IH.
Qed.

(** The 20 shares shorted at 50 with the price at 48. *)
Lemma tick_with_position_only_closes_witness :
  exists added,
    trading_history (fst (trading_logic (Examples.market_at 48)
                            (Examples.sim_engine 48) 10 true
                            (Examples.short_state Examples.short_50_20)))
    = trading_history (Examples.short_state Examples.short_50_20) ++ added
    /\ Forall (fun r => Action r = "Short Close"%string) added.
Proof.
  destruct (tick_with_position_only_closes (Examples.market_at 48)
              (Examples.sim_engine 48) 10 true
              (Examples.short_state Examples.short_50_20))
    as (added & H1 & H2 & _).
  - right. discriminate.
  - exists added. split; assumption.
Defined.

End LedgerInvariants.

Section TickFacts.

Import TradingEngine App Ledger.

Lemma try_except_unit (m : M unit) (st : State) :
  snd (try_except m (fun _ => ret tt) st) = Ok tt.
Proof.
  unfold try_except. destruct (m st) as [st' [[]|e]]; reflexivity.
Qed.

(** X6. A run of the trading logic never raises: whatever the market
    data, the brokerage and the engine do, every exception is caught
    inside the run. *)
Theorem trading_logic_never_raises (ds : DataService) (engine : t) (now : Q)
  (hours : bool) (st : State) :
  snd (trading_logic ds engine now hours st) = Ok tt.
Proof.
  unfold trading_logic. destruct hours.
  - apply try_except_unit.
  - unfold out_of_hours_logic, bind, get.
    destruct (current_position st) as [p|]; [apply try_except_unit|reflexivity].
Qed.

(** X7. Outside trading hours: with no position the run changes nothing;
    with a position whose price can be fetched the position is closed at
    once for the reason "Market closed", whatever the targets and the
    cycle say (at the fetched price unless an order goes to the
    brokerage); when the price cannot be fetched the run changes
    nothing. *)
Theorem out_of_hours_gate (ds : DataService) (engine : t) (now : Q) (st : State) :
  match current_position st with
  | None => fst (trading_logic ds engine now false st) = st
  | Some p =>
      match get_latest_stock_data ds (symbol p) with
      | Raise _ => fst (trading_logic ds engine now false st) = st
      | Ok price =>
          exists fill real,
            fst (trading_logic ds engine now false st)
            = Outcome.closed st p "Market closed" fill real
            /\ (Outcome.sends_order engine p = true
                \/ (fill = price /\ real = false))
      end
  end.
Proof.
  unfold trading_logic, out_of_hours_logic, try_except, bind, get, lift.
  destruct (current_position st) as [p|]; [|reflexivity].
  destruct (get_latest_stock_data ds (symbol p)) as [price|e]; [|reflexivity].
  destruct (close_fill_some engine p price st) as (oi & fill & Hf & Hor).
  exists fill, (real_trade p && is_some oi).
  rewrite close_position_run, Hf. cbn [snd fst]. split; [reflexivity|].
  destruct Hor as [Hs|[Hoi Hfill]]; [left; exact Hs|right].
  subst. rewrite andb_false_r. split; reflexivity.
Qed.

(** X8. A failed call writes nothing: when [open_position] raises the
    state is untouched, and when [close_position] raises neither the
    balances, nor the histories, nor the stored position have changed. *)
Theorem failed_calls_write_nothing (self : t) (st st' : State) (e : exn) :
  (forall sym size price,
      open_position self sym size price st = (st', Raise e) -> st' = st)
  /\ (forall p reason cp,
         close_position self p reason cp st = (st', Raise e) ->
         same_data st st').
Proof.
  split.
  - intros sym size price H.
    destruct (open_position_cases self sym size price st)
      as [[e' He]|[p [Hp _]]]; rewrite H in *; congruence.
  - intros p reason cp H. rewrite close_position_run in H.
    destruct (snd (close_fill self p cp st)) as [[oi [fill|]]|e'];
      inversion H; subst; repeat split.
Qed.

(** The open of 40 at a price of 50 and the close without a price on the
    refusing brokerage. *)
Lemma failed_calls_write_nothing_witness :
  Examples.flat_state = Examples.flat_state
  /\ same_data (Examples.short_state Examples.real_short_50_20)
       (Outcome.called (Examples.short_state Examples.real_short_50_20)
          Examples.real_short_50_20 "Take profit").
Proof.
  split.
  - exact (proj1 (failed_calls_write_nothing (Examples.sim_engine 50)
                    Examples.flat_state Examples.flat_state size_too_small)
                 "BHP"%string 40 50 eq_refl).
  - exact (proj2 (failed_calls_write_nothing (Examples.real_engine 45)
                    (Examples.short_state Examples.real_short_50_20)
                    (Outcome.called (Examples.short_state Examples.real_short_50_20)
                       Examples.real_short_50_20 "Take profit")
                    TypeError)
                 Examples.real_short_50_20 "Take profit"%string None eq_refl).
Defined.



End TickFacts.

Section Decision.

Import TradingEngine App Ledger.




End Decision.

Section ScanFacts.

Import StockAnalyzer App Scan.

Lemma score_clamped (df : DataFrame) : (0 <= get_shorting_score df <= 100)%Z.
Proof.
  unfold get_shorting_score, get_shorting_score_body.
  destruct (empty df); [lia|].
  destruct (volatility_points df) as [v|e]; cbn [rbind]; [|lia].
  destruct (recent_gain_points df) as [g|e]; cbn [rbind]; lia.
Qed.

(** A candidate's score is at least 60 and at most 100. *)
Lemma candidate_range (ds : DataService) (x : WatchItem) (s : Z) :
  candidate ds x = Some s -> (60 <= s <= 100)%Z.
Proof.
  unfold candidate, get_recommendation.
  destruct (get_stock_historical_data ds (item_symbol x)) as [df|e]; [|discriminate].
  destruct (empty df); [cbn; discriminate|].
  pose proof (score_clamped df) as Hr.
  destruct (70 <=? get_shorting_score df)%Z eqn:E70.
  { cbn. intro H. inversion H; subst. apply Z.leb_le in E70. lia. }
  destruct (60 <=? get_shorting_score df)%Z eqn:E60.
  { cbn. intro H. inversion H; subst. apply Z.leb_le in E60. lia. }
  destruct (get_shorting_score df <=? 30)%Z; cbn; discriminate.
Qed.

Lemma scan_step_candidate (ds : DataService) (best : option WatchItem * Z)
  (x : WatchItem) :
  scan_step ds best x
  = match candidate ds x with
    | Some s => if (snd best <? s)%Z then (Some x, s) else best
    | None => best
    end.
Proof.
  unfold scan_step, candidate.
  destruct (get_stock_historical_data ds (item_symbol x)) as [df|e]; [|reflexivity].
  cbv zeta.
  destruct (is_short_call _); [|reflexivity].
  destruct (score _); reflexivity.
Qed.

(** The scan keeps what it has when nothing beats it. *)
Lemma scan_unchanged (ds : DataService) (l : list WatchItem)
  (acc : option WatchItem * Z) :
  (forall y s', In y l -> candidate ds y = Some s' -> (s' <= snd acc)%Z) ->
  fold_left (scan_step ds) l acc = acc.
Proof.
  induction l as [|x l IH]; intro H; [reflexivity|].
  cbn [fold_left]. rewrite scan_step_candidate.
  destruct (candidate ds x) as [s|] eqn:E.
  - pose proof (H x s (or_introl eq_refl) E) as Hle.
    destruct (snd acc <? s)%Z eqn:El; [apply Z.ltb_lt in El; lia|].
    apply IH. intros y s' Hy. apply H. right. exact Hy.
  - apply IH. intros y s' Hy. apply H. right. exact Hy.
Qed.

(** The score of the scan stays below a bound that every score seen stays
    below. *)
Lemma scan_below (ds : DataService) (l : list WatchItem)
  (acc : option WatchItem * Z) (s : Z) :
  (snd acc < s)%Z ->
  (forall y s', In y l -> candidate ds y = Some s' -> (s' < s)%Z) ->
  (snd (fold_left (scan_step ds) l acc) < s)%Z.
Proof.
  revert acc. induction l as [|x l IH]; intros acc Ha H; [exact Ha|].
  cbn [fold_left]. apply IH.
  - rewrite scan_step_candidate.
    destruct (candidate ds x) as [sx|] eqn:E; [|exact Ha].
    destruct (snd acc <? sx)%Z; [|exact Ha].
    cbn [snd]. exact (H x sx (or_introl eq_refl) E).
  - intros y s' Hy. apply H. right. exact Hy.
Qed.

(** The scan ends on an entry it saw, with that entry's score, which no
    score seen exceeds; or on what it started with. *)
Lemma scan_result (ds : DataService) (l : list WatchItem)
  (acc : option WatchItem * Z) :
  let r := fold_left (scan_step ds) l acc in
  (snd acc <= snd r)%Z
  /\ (forall y s', In y l -> candidate ds y = Some s' -> (s' <= snd r)%Z)
  /\ (r = acc
      \/ exists x, In x l /\ fst r = Some x /\ candidate ds x = Some (snd r)).
Proof.
  revert acc. induction l as [|x l IH]; intro acc; cbn [fold_left].
  - split; [lia|]. split; [intros y s' []|left; reflexivity].
  - specialize (IH (scan_step ds acc x)). cbv zeta in IH.
    destruct IH as (I1 & I2 & I3).
    assert (Hstep : (snd acc <= snd (scan_step ds acc x))%Z
                    /\ (forall s', candidate ds x = Some s' ->
                                   (s' <= snd (scan_step ds acc x))%Z)
                    /\ (scan_step ds acc x = acc
                        \/ (fst (scan_step ds acc x) = Some x
                            /\ candidate ds x = Some (snd (scan_step ds acc x))))).
    { rewrite scan_step_candidate.
      destruct (candidate ds x) as [sx|] eqn:E.
      - destruct (snd acc <? sx)%Z eqn:El.
        + apply Z.ltb_lt in El. cbn [fst snd].
          split; [lia|]. split; [intros s' Hs; inversion Hs; lia|].
          right. split; reflexivity.
        + apply Z.ltb_ge in El.
          split; [lia|]. split; [intros s' Hs; inversion Hs; lia|].
          left. reflexivity.
      - split; [lia|]. split; [discriminate|]. left. reflexivity. }
    destruct Hstep as (S1 & S2 & S3).
    split; [lia|]. split.
    + intros y s' [Hy|Hy] Hc.
      * subst y. specialize (S2 s' Hc). lia.
      * exact (I2 y s' Hy Hc).
    + destruct I3 as [I3|(z & Hz & Hf & Hc)].
      * rewrite I3. destruct S3 as [S3|[Sf Sc]].
        -- left. exact S3.
        -- right. exists x. split; [left; reflexivity|]. split; assumption.
      * right. exists z. split; [right; exact Hz|]. split; assumption.
Qed.

(** X11. The scan of the watch list selects an entry of the list that is
    recommended SHORT or STRONG SHORT, with its own score, which is at
    least 60 (so the later test best_score >= 60 never rejects a
    selection) and at most 100, and which no other candidate exceeds; it
    selects nothing exactly when the list has no candidate. *)
Theorem find_best_selects_maximum (ds : DataService) (stocks : list WatchItem) :
  match find_best ds stocks with
  | (Some x, s) =>
      In x stocks
      /\ candidate ds x = Some s
      /\ (60 <= s <= 100)%Z
      /\ forall y s', In y stocks -> candidate ds y = Some s' -> (s' <= s)%Z
  | (None, s) =>
      s = 0%Z /\ forall y, In y stocks -> candidate ds y = None
  end.
Proof.
  unfold find_best.
  pose proof (scan_result ds stocks (None, 0%Z)) as H. cbv zeta in H.
  destruct H as (H1 & H2 & H3).
  destruct (fold_left (scan_step ds) stocks (None, 0%Z)) as [[x|] s] eqn:E;
    cbn [fst snd] in *.
  - destruct H3 as [H3|(z & Hz & Hf & Hc)]; [discriminate|].
    inversion Hf; subst z.
    split; [exact Hz|]. split; [exact Hc|].
    split; [exact (candidate_range ds x s Hc)|exact H2].
  - destruct H3 as [H3|(z & Hz & Hf & Hc)]; [|discriminate].
    inversion H3; subst s. split; [reflexivity|].
    intros y Hy. destruct (candidate ds y) as [s'|] eqn:Ec; [|reflexivity].
    pose proof (H2 y s' Hy Ec). pose proof (candidate_range ds y s' Ec). lia.
Qed.

(** On a quiet market at 50 the only entry is a SHORT call scoring 60: it
    is the one selected. *)
Lemma find_best_selects_maximum_witness :
  In (mkWatchItem "BHP" 50) [mkWatchItem "BHP" 50]
  /\ candidate (Examples.market_at 50) (mkWatchItem "BHP" 50) = Some 60%Z
  /\ (60 <= 60 <= 100)%Z
  /\ forall y s', In y [mkWatchItem "BHP" 50] ->
       candidate (Examples.market_at 50) y = Some s' -> (s' <= 60)%Z.
Proof.
  pose proof (find_best_selects_maximum (Examples.market_at 50)
                [mkWatchItem "BHP" 50]) as H.
  assert (E : find_best (Examples.market_at 50) [mkWatchItem "BHP" 50]
              = (Some (mkWatchItem "BHP" 50), 60%Z))
    by (vm_compute; reflexivity).
  rewrite E in H. exact H.
Defined.

(** X12. Ties go to the first: an entry whose score is strictly above the
    scores of all candidates before it and not below those of the
    candidates after it is the one selected. *)
Theorem find_best_first_wins (ds : DataService) (before after : list WatchItem)
  (x : WatchItem) (s : Z) :
  candidate ds x = Some s ->
  (forall y s', In y before -> candidate ds y = Some s' -> (s' < s)%Z) ->
  (forall y s', In y after -> candidate ds y = Some s' -> (s' <= s)%Z) ->
  find_best ds (before ++ x :: after) = (Some x, s).
Proof.
  intros Hc Hb Ha. unfold find_best.
  rewrite fold_left_app. cbn [fold_left].
  pose proof (candidate_range ds x s Hc) as Hr.
  assert (Hlt : (snd (fold_left (scan_step ds) before (None, 0%Z)) < s)%Z).
  { apply scan_below; [cbn [snd]; lia|exact Hb]. }
  rewrite scan_step_candidate, Hc.
  apply Z.ltb_lt in Hlt. rewrite Hlt.
  apply scan_unchanged. exact Ha.
Qed.

(** Two entries with the same data, hence the same score of 60: the first
    is selected. *)
Lemma find_best_first_wins_witness :
  find_best (Examples.market_at 50)
            ([] ++ mkWatchItem "BHP" 50 :: [mkWatchItem "CBA" 50])
  = (Some (mkWatchItem "BHP" 50), 60%Z).
Proof.
  apply find_best_first_wins.
  - vm_compute. reflexivity.
  - intros y s' [].
  - intros y s' [Hy|[]] Hc. subst y. vm_compute in Hc. inversion Hc. lia.
Defined.

End ScanFacts.

Section ScoreFacts.

Import StockAnalyzer.

Lemma trend_points_nonneg (df : DataFrame) (ind : option Indicators) :
  (0 <= trend_points df ind)%Z.
Proof.
  unfold trend_points. destruct ind as [i|]; [|lia].
  pose proof (points_nonneg (xlt (Fin (latest_Close df)) (last_x (SMA20 i))) 10).
  pose proof (points_nonneg (xlt (last_x (SMA20 i)) (last_x (SMA50 i))) 15).
  lia.
Qed.

Lemma momentum_points_bound (ind : option Indicators) :
  (-15 <= momentum_points ind)%Z.
Proof.
  unfold momentum_points. destruct ind as [i|]; [|lia].
  cbv zeta.
  destruct (xgt (last_x (RSI i)) (Fin 70)); [lia|].
  destruct (xgt (last_x (RSI i)) (Fin 60)); [lia|].
  destruct (xlt (last_x (RSI i)) (Fin 30)); lia.
Qed.

Lemma Ok_inj {A} (a b : A) : Ok a = Ok b -> a = b.
Proof. intro H. congruence. Qed.

(** X13. Unless the computation raises, a non-empty frame scores at least
    35 (the only deduction is the 15 of an oversold RSI); so the
    recommendation "AVOID SHORT", which needs a score of 30 or less, is
    given only when the score computation failed and returned 0. *)
Theorem avoid_short_only_on_failure (sym : string) (df : DataFrame) :
  (forall s, get_shorting_score_body df = Ok s -> empty df = false ->
             (35 <= s <= 100)%Z)
  /\ (recommendation (get_recommendation sym (Some df)) = "AVOID SHORT"%string ->
      get_shorting_score df = 0%Z
      /\ exists e, get_shorting_score_body df = Raise e).
Proof.
  assert (Hlow : forall s, get_shorting_score_body df = Ok s -> empty df = false ->
                           (35 <= s <= 100)%Z).
  { intros s H Hne. unfold get_shorting_score_body in H. rewrite Hne in H.
    destruct (volatility_points df) as [v|e] eqn:Ev; cbn [rbind] in H;
      [|discriminate].
    destruct (recent_gain_points df) as [g|e] eqn:Eg; cbn [rbind] in H;
      [|discriminate].
    apply Ok_inj in H. rewrite <- H. clear H.
    pose proof (volatility_points_nonneg _ _ Ev).
    pose proof (recent_gain_points_nonneg _ _ Eg).
    pose proof (volume_points_nonneg df).
    pose proof (trend_points_nonneg df (_calculate_indicators df)).
    pose proof (momentum_points_bound (_calculate_indicators df)).
    lia. }
  split; [exact Hlow|].
  unfold get_recommendation.
  destruct (empty df) eqn:Hne; [cbn; discriminate|].
  destruct (70 <=? get_shorting_score df)%Z; [cbn; discriminate|].
  destruct (60 <=? get_shorting_score df)%Z; [cbn; discriminate|].
  destruct (get_shorting_score df <=? 30)%Z eqn:E30; [|cbn; discriminate].
  intros _. apply Z.leb_le in E30. unfold get_shorting_score in *.
  destruct (get_shorting_score_body df) as [s|e] eqn:Eb.
  - pose proof (Hlow s eq_refl eq_refl). lia.
  - split; [reflexivity|]. exists e. reflexivity.
Qed.

(** The frame without a Close column. *)
Lemma avoid_short_only_on_failure_witness :
  get_shorting_score Examples.no_close_frame = 0%Z.
Proof.
  exact (proj1 (proj2 (avoid_short_only_on_failure "BHP" Examples.no_close_frame)
                      eq_refl)).
Defined.

Lemma Qsum_nonneg (xs : list Q) : Forall (fun x => 0 <= x) xs -> 0 <= Qsum xs.
Proof.
  unfold Qsum. induction 1 as [|x xs Hx _ IH]; cbn [fold_right].
  - apply Qle_refl.
  - replace 0 with (0 + 0) by reflexivity. apply Qplus_le_compat; assumption.
Qed.

Lemma Qmean_nonneg (xs : list Q) : Forall (fun x => 0 <= x) xs -> 0 <= Qmean xs.
Proof.
  intro H. unfold Qmean.
  destruct xs as [|x xs]; [cbn; discriminate|].
  apply Qle_shift_div_l.
  - unfold Qlt. cbn [List.length]. cbn. lia.
  - rewrite Qmult_0_l. apply Qsum_nonneg. exact H.
Qed.

Lemma Forall_window {A} (P : A -> Prop) (w k : nat) (xs : list A) :
  Forall P xs -> Forall P (firstn w (skipn k xs)).
Proof.
  intro H. apply Forall_forall. intros x Hx.
  rewrite Forall_forall in H. apply H.
  rewrite <- (firstn_skipn k xs). apply in_or_app. right.
  rewrite <- (firstn_skipn w (skipn k xs)). apply in_or_app. left. exact Hx.
Qed.

(** A rolling mean of non-negative numbers is NaN or non-negative. *)
Lemma rolling_mean_nonneg (w : nat) (xs : list Q) (a : xfloat) :
  Forall (fun x => 0 <= x) xs ->
  In a (rolling_mean w xs) ->
  a = NaN \/ exists q, a = Fin q /\ 0 <= q.
Proof.
  intros H Ha. unfold rolling_mean in Ha. apply in_map_iff in Ha.
  destruct Ha as (i & Hi & _).
  destruct (Nat.leb w (S i)); [|left; symmetry; exact Hi].
  right. eexists. split; [symmetry; exact Hi|].
  apply Qmean_nonneg, Forall_window, H.
Qed.

Lemma in_zip_with {A B C} (f : A -> B -> C) (xs : list A) (ys : list B) (c : C) :
  In c (zip_with f xs ys) -> exists a b, In a xs /\ In b ys /\ c = f a b.
Proof.
  revert ys. induction xs as [|x xs IH]; intros [|y ys] H; cbn in H;
    try contradiction.
  destruct H as [H|H].
  - exists x, y. repeat split; [left; reflexivity|left; reflexivity|].
    symmetry. exact H.
  - destruct (IH ys H) as (a & b & Ha & Hb & Hc).
    exists a, b. repeat split; [right; exact Ha|right; exact Hb|exact Hc].
Qed.

Lemma gains_nonneg (cond : Q -> bool) (delta : list xfloat) :
  (forall v, cond v = true -> 0 <= v) ->
  Forall (fun x => 0 <= x) (where_or_zero cond delta).
Proof.
  intro Hc. unfold where_or_zero. apply Forall_forall. intros x Hx.
  apply in_map_iff in Hx. destruct Hx as (d & Hd & _). subst x.
  destruct d as [v| | |]; try apply Qle_refl.
  destruct (cond v) eqn:E; [apply Hc, E|apply Qle_refl].
Qed.

Lemma losses_nonneg (delta : list xfloat) :
  Forall (fun x => 0 <= x)
         (map Qopp (where_or_zero (fun v => Qlt_bool v 0) delta)).
Proof.
  unfold where_or_zero. apply Forall_forall. intros x Hx.
  apply in_map_iff in Hx. destruct Hx as (y & Hy & Hin). subst x.
  apply in_map_iff in Hin. destruct Hin as (d & Hd & _). subst y.
  destruct d as [v| | |]; try (cbn; discriminate).
  destruct (Qlt_bool v 0) eqn:E; [|cbn; discriminate].
  apply Qlt_bool_iff in E. lra.
Qed.

(** The RSI formula on a ratio of non-negative averages. *)
Lemma rsi_value_range (g l : Q) :
  0 <= g -> 0 <= l ->
  match xsub (Fin 100) (xdiv (Fin 100) (xadd (Fin 1) (xdiv (Fin g) (Fin l)))) with
  | Fin q => 0 <= q <= 100
  | NaN => True
  | _ => False
  end.
Proof.
  intros Hg Hl. unfold xdiv at 2.
  destruct (Qis_zero l) eqn:El.
  - destruct (Qis_zero g) eqn:Eg; [exact I|].
    assert (Hpos : Qlt_bool 0 g = true).
    { apply Qlt_bool_iff. unfold Qis_zero in Eg.
      destruct (Qeq_dec g 0) as [E|E].
      - apply Qeq_bool_iff in E. congruence.
      - lra. }
    rewrite Hpos. cbn. split; [discriminate|apply Qle_refl].
  - assert (Hl' : 0 < l).
    { unfold Qis_zero in El. destruct (Qeq_dec l 0) as [E|E].
      - apply Qeq_bool_iff in E. congruence.
      - lra. }
    assert (Hr : 0 <= g / l) by (apply Qle_shift_div_l; lra).
    cbn [xadd]. unfold xdiv.
    assert (Hz : Qis_zero (1 + g / l) = false).
    { unfold Qis_zero. destruct (Qeq_bool (1 + g / l) 0) eqn:E; [|reflexivity].
      apply Qeq_bool_iff in E. lra. }
    rewrite Hz. cbn [xsub xneg xadd].
    assert (H1 : 0 < 100 / (1 + g / l)) by (apply Qlt_shift_div_l; lra).
    assert (H2 : 100 / (1 + g / l) <= 100) by (apply Qle_shift_div_r; lra).
    split; lra.
Qed.

(** X14. Every value of the RSI series is NaN or a number between 0 and
    100; it is never infinite. *)
Theorem rsi_series_range (close : list Q) (r : xfloat) :
  In r (rsi_series close) ->
  match r with
  | Fin q => 0 <= q <= 100
  | NaN => True
  | _ => False
  end.
Proof.
  unfold rsi_series. cbv zeta. intro H.
  apply in_map_iff in H. destruct H as (rs & Hr & Hin). subst r.
  apply in_zip_with in Hin. destruct Hin as (a & b & Ha & Hb & Hrs). subst rs.
  apply rolling_mean_nonneg in Ha.
  2:{ apply gains_nonneg. intros v Hv. apply Qlt_bool_iff in Hv. lra. }
  apply rolling_mean_nonneg in Hb; [|apply losses_nonneg].
  destruct Ha as [Ha|(g & Ha & Hg)]; subst a; [exact I|].
  destruct Hb as [Hb|(l & Hb & Hl)]; subst b; [exact I|].
  apply rsi_value_range; assumption.
Qed.

(** The latest RSI of the fifty-bar example. *)
Lemma rsi_series_range_witness :
  0 <= 18200 # 196 <= 100.
Proof.
  refine (rsi_series_range
            (map bar_Close (rows Examples.spike_then_climb)) (Fin (18200 # 196)) _).
  vm_compute. do 49 right. left. reflexivity.
Defined.

End ScoreFacts.

(* ------------------------------------------------------------------ *)
(** * Trading hours and sessions *)

Section ClockFacts.

Import Clock Utils Sessions.

(** X15. The three places that decide whether the market is open agree:
    [get_asx_market_status] reports "MARKET OPEN" and
    [get_asx_market_info] reports "OPEN" exactly when
    [is_asx_trading_hours] holds, that is on Monday to Friday from 10:00
    to 16:00, both ends included. *)
Theorem market_open_tests_agree (now : datetime) :
  fst (fst (get_asx_market_status now))
  = (if is_asx_trading_hours now then "MARKET OPEN" else "MARKET CLOSED")%string
  /\ market_info_status now
     = (if is_asx_trading_hours now then "OPEN" else "CLOSED")%string
  /\ (is_asx_trading_hours now = true
      <-> (0 <= weekday now <= 4
           /\ 10 * hour_micros <= micros now <= 16 * hour_micros)%Z).
Proof.
  unfold get_asx_market_status, market_info_status, is_asx_trading_hours,
    dt_leb, at_hour, weekday. cbn [ordinal micros]. cbv zeta.
  pose proof (Z.mod_pos_bound (ordinal now + 6) 7 ltac:(lia)) as Hw.
  rewrite !Z.ltb_irrefl, !Z.eqb_refl. cbn [orb andb].
  destruct (4 <? (ordinal now + 6) mod 7)%Z eqn:E1;
    destruct ((ordinal now + 6) mod 7 <=? 4)%Z eqn:E2;
    destruct ((ordinal now + 6) mod 7 <? 5)%Z eqn:E3; try lia;
    destruct (10 * hour_micros <=? micros now)%Z eqn:E4;
    destruct (micros now <=? 16 * hour_micros)%Z eqn:E5;
    cbn [andb fst]; (split; [reflexivity|]); (split; [reflexivity|]);
    split; intros; try discriminate; try reflexivity; lia.
Qed.

Lemma market_open_tests_agree_witness :
  is_asx_trading_hours (mkDT 738000 (12 * hour_micros)) = true.
Proof.
  apply (proj2 (proj2 (market_open_tests_agree (mkDT 738000 (12 * hour_micros))))).
  vm_compute. repeat split; discriminate.
Defined.

Ltac clock_unfold :=
  unfold next_open, next_trading_day, is_asx_trading_hours, dt_leb, dt_ltb,
    at_hour, add_days, weekday, wf, minus, day_micros, hour_micros in *;
  cbn [ordinal micros] in *; cbv zeta in *.

Ltac split_ifs :=
  repeat (match goal with
          | |- context [if ?b then _ else _] => destruct b eqn:?
          | H : context [if ?b then _ else _] |- _ => destruct b eqn:?
          end; cbn [ordinal micros] in *).

Ltac clock_lia := Z.div_mod_to_equations; lia.

(** X16. While the market is closed, the opening that
    [get_asx_market_status] counts down to is the next one: it is a
    moment at which the market is open, it lies after the current time
    and less than three days ahead, and the market is closed at every
    moment in between. *)
Theorem next_open_is_next (now : datetime) :
  wf now ->
  is_asx_trading_hours now = false ->
  is_asx_trading_hours (next_open now) = true
  /\ dt_ltb now (next_open now) = true
  /\ (0 < minus (next_open now) now < 3 * day_micros)%Z
  /\ forall t, wf t -> dt_ltb now t = true -> dt_ltb t (next_open now) = true ->
               is_asx_trading_hours t = false.
Proof.
  intros Hwf Hclosed. clock_unfold.
  split; [|split; [|split]].
  - split_ifs; clock_lia.
  - split_ifs; clock_lia.
  - split_ifs; clock_lia.
  - intros t Ht Hafter Hbefore. split_ifs; clock_lia.
Qed.

(** Friday at 17:00. *)
Lemma next_open_is_next_witness :
  is_asx_trading_hours (next_open (mkDT 738001 (17 * hour_micros))) = true.
Proof.
  refine (proj1 (next_open_is_next (mkDT 738001 (17 * hour_micros)) _ _)).
  - unfold wf, day_micros, hour_micros; cbn [micros]; lia.
  - reflexivity.
Defined.

(** X17. While the market is closed, [get_asx_market_info] counts down to
    the same opening as [get_asx_market_status], except on a Friday after
    16:00: there it counts down to Saturday 10:00, when the market is
    closed. *)
Theorem market_info_next_day (now : datetime) :
  wf now ->
  is_asx_trading_hours now = false ->
  if (weekday now =? 4)%Z && (16 * hour_micros <? micros now)%Z
  then next_trading_day now = at_hour 10 (add_days 1 now)
       /\ weekday (next_trading_day now) = 5%Z
       /\ is_asx_trading_hours (next_trading_day now) = false
       /\ next_trading_day now <> next_open now
  else next_trading_day now = next_open now.
Proof.
  intros Hwf Hclosed. clock_unfold.
  split_ifs; repeat split; try (f_equal; clock_lia); try clock_lia.
  intro H. apply (f_equal ordinal) in H. cbn [ordinal] in H. clock_lia.
Qed.

(** Friday at 17:00 again. *)
Lemma market_info_next_day_witness :
  weekday (next_trading_day (mkDT 738001 (17 * hour_micros))) = 5%Z.
Proof.
  refine (proj1 (proj2 (market_info_next_day (mkDT 738001 (17 * hour_micros)) _ _))).
  - unfold wf, day_micros, hour_micros; cbn [micros]; lia.
  - reflexivity.
Defined.

(** X18. [_get_next_asx_session] always sets both entries.  By calendar
    day and time of day, the next open is a moment after now at which the
    market is open, the next close is 16:00 of a trading day not before
    now.  While the market is
    closed the next open is the opening [get_asx_market_status] counts
    down to and the next close is on that same day; while it is open the
    next close is today's and comes before the next open. *)
Theorem next_session_is_set (now : datetime) :
  wf now ->
  exists o c,
    _get_next_asx_session now = mkSession (Some o) (Some c)
    /\ is_asx_trading_hours o = true
    /\ dt_ltb now o = true
    /\ is_asx_trading_hours c = true
    /\ micros c = (16 * hour_micros)%Z
    /\ dt_leb now c = true
    /\ if is_asx_trading_hours now
       then ordinal c = ordinal now /\ dt_ltb c o = true
       else o = next_open now /\ ordinal c = ordinal o.
Proof.
  intro Hwf. unfold _get_next_asx_session, combine. clock_unfold.
  repeat (match goal with
          | |- context [if ?b then mkSession _ _ else _] => destruct b eqn:?
          | |- context [mkSession (Some (mkDT (_ + (if ?b then _ else _)) _)) _] =>
              destruct b eqn:?
          | |- context [mkSession _ (Some (mkDT (_ + (if ?b then _ else _)) _))] =>
              destruct b eqn:?
          end);
    first [ do 2 eexists; split; [reflexivity|]; cbn [ordinal micros];
            split_ifs; repeat split; try (f_equal; clock_lia); clock_lia
          | exfalso; clock_lia ].
Qed.

(** Thursday at noon. *)
Lemma next_session_is_set_witness :
  exists o c,
    _get_next_asx_session (mkDT 738000 (12 * hour_micros))
    = mkSession (Some o) (Some c)
    /\ is_asx_trading_hours o = true.
Proof.
  destruct (next_session_is_set (mkDT 738000 (12 * hour_micros)))
    as (o & c & H1 & H2 & _).
  - unfold wf, day_micros, hour_micros; cbn [micros]; lia.
  - exists o, c. split; assumption.
Defined.




End ClockFacts.

(* ------------------------------------------------------------------ *)
(** * Performance metrics *)

Section MetricsFacts.

Import Performance Ledger.



(** No row is both a win and a loss. *)
Lemma wins_losses_count (rows : list Transaction) :
  (List.length (pnl_where (fun p => Qlt_bool 0 p) rows)
   + List.length (pnl_where (fun p => Qle_bool p 0) rows)
   <= List.length rows)%nat
  /\ ((forall t, In t rows -> P_L t <> None) ->
      (List.length (pnl_where (fun p => Qlt_bool 0 p) rows)
       + List.length (pnl_where (fun p => Qle_bool p 0) rows)
       = List.length rows)%nat).
Proof.
  induction rows as [|t rows [IH1 IH2]]; [split; reflexivity|].
  unfold pnl_where in *. cbn [flat_map].
  rewrite !length_app. cbn [List.length].
  assert (Hx : forall p, Qlt_bool 0 p = negb (Qle_bool p 0)) by reflexivity.
  split.
  - destruct (P_L t) as [p|]; [|cbn; lia].
    rewrite Hx. destruct (Qle_bool p 0); cbn; lia.
  - intro H.
    assert (IH : forall t0, In t0 rows -> P_L t0 <> None)
      by (intros t0 Ht0; apply H; right; exact Ht0).
    specialize (IH2 IH).
    pose proof (H t (or_introl eq_refl)) as Ht.
    destruct (P_L t) as [p|]; [|contradiction].
    rewrite Hx. destruct (Qle_bool p 0); cbn; lia.
Qed.

Lemma Qsum_wins_nonneg (rows : list Transaction) :
  0 <= Qsum (pnl_where (fun p => Qlt_bool 0 p) rows).
Proof.
  apply Qsum_nonneg. apply Forall_forall. intros x Hx.
  unfold pnl_where in Hx. apply in_flat_map in Hx. destruct Hx as (t & _ & Hx).
  destruct (P_L t) as [p|]; [|contradiction].
  destruct (Qlt_bool 0 p) eqn:E; [|contradiction].
  destruct Hx as [Hx|[]]. subst x. apply Qlt_bool_iff in E. lra.
Qed.

Lemma Qsum_nonpos (xs : list Q) : Forall (fun x => x <= 0) xs -> Qsum xs <= 0.
Proof.
  unfold Qsum. induction 1 as [|x xs Hx _ IH]; cbn [fold_right].
  - apply Qle_refl.
  - lra.
Qed.

Lemma Qsum_losses_nonpos (rows : list Transaction) :
  Qsum (pnl_where (fun p => Qle_bool p 0) rows) <= 0.
Proof.
  apply Qsum_nonpos. apply Forall_forall. intros x Hx.
  unfold pnl_where in Hx. apply in_flat_map in Hx. destruct Hx as (t & _ & Hx).
  destruct (P_L t) as [p|]; [|contradiction].
  destruct (Qle_bool p 0) eqn:E; [|contradiction].
  destruct Hx as [Hx|[]]. subst x. apply Qle_bool_iff in E. exact E.
Qed.

Lemma length_pos_Q (n : nat) : (0 < n)%nat -> 0 < inject_Z (Z.of_nat n).
Proof. intro H. change 0 with (inject_Z 0). rewrite <- Zlt_Qlt. lia. Qed.

(** X20. In the metrics of any history: winning and losing trades together
    never exceed the number of Close rows, and make it up exactly when
    every row has a P/L; total profit is not negative and total loss not
    positive, and so are the averages; the win rate lies between 0 and
    100; and a non-empty history without a losing trade has an infinite
    profit factor. *)
Theorem metrics_are_consistent (h : list Transaction) :
  let m := calculate_performance_metrics h in
  (winning_trades m + losing_trades m <= total_trades m)%nat
  /\ ((forall t, In t h -> P_L t <> None) ->
      (winning_trades m + losing_trades m = total_trades m)%nat)
  /\ 0 <= total_profit m /\ total_loss m <= 0
  /\ 0 <= average_win m /\ average_loss m <= 0
  /\ 0 <= win_rate m <= 100
  /\ (h <> [] -> losing_trades m = 0%nat -> profit_factor m = PInf).
Proof.
  destruct h as [|t0 h0].
  { cbn. repeat split; try discriminate; try lia.
    intro H. contradiction. }
  unfold calculate_performance_metrics. cbv zeta.
  cbn [total_trades winning_trades losing_trades total_profit total_loss
       average_win average_loss win_rate profit_factor].
  set (ct := filter is_close (t0 :: h0)).
  pose proof (wins_losses_count ct) as [Hc1 Hc2].
  pose proof (Qsum_wins_nonneg ct) as Hw.
  pose proof (Qsum_losses_nonpos ct) as Hl.
  split; [exact Hc1|]. split.
  { intro H. apply Hc2. intros t Ht. apply H.
    unfold ct in Ht. apply filter_In in Ht. exact (proj1 Ht). }
  split; [exact Hw|]. split; [exact Hl|]. split.
  { destruct (Nat.ltb 0 (List.length (pnl_where (fun p => Qlt_bool 0 p) ct))) eqn:E;
      [|apply Qle_refl].
    apply Nat.ltb_lt in E. apply Qle_shift_div_l; [apply length_pos_Q, E|lra]. }
  split.
  { destruct (Nat.ltb 0 (List.length (pnl_where (fun p => Qle_bool p 0) ct))) eqn:E;
      [|apply Qle_refl].
    apply Nat.ltb_lt in E. apply Qle_shift_div_r; [apply length_pos_Q, E|lra]. }
  split.
  { destruct (Nat.ltb 0 (List.length ct)) eqn:E; [|split; [apply Qle_refl|discriminate]].
    apply Nat.ltb_lt in E. pose proof (length_pos_Q _ E) as Hp.
    set (w := List.length (pnl_where (fun p => Qlt_bool 0 p) ct)) in *.
    assert (Hw0 : 0 <= inject_Z (Z.of_nat w))
      by (change 0 with (inject_Z 0); rewrite <- Zle_Qle; lia).
    assert (Hwt : inject_Z (Z.of_nat w) <= inject_Z (Z.of_nat (List.length ct)))
      by (rewrite <- Zle_Qle; lia).
    assert (H0 : 0 <= inject_Z (Z.of_nat w) / inject_Z (Z.of_nat (List.length ct)))
      by (apply Qle_shift_div_l; lra).
    assert (H1 : inject_Z (Z.of_nat w) / inject_Z (Z.of_nat (List.length ct)) <= 1)
      by (apply Qle_shift_div_r; lra).
    split; lra. }
  intros _ Hz.
  assert (Hnil : pnl_where (fun p => Qle_bool p 0) ct = [])
    by (destruct (pnl_where (fun p => Qle_bool p 0) ct); [reflexivity|discriminate]).
  rewrite Hnil. reflexivity.
Qed.

(** A history of one winning close. *)
Lemma metrics_are_consistent_witness :
  profit_factor
    (calculate_performance_metrics
       [Outcome.close_transaction Examples.short_50_20 "Take profit" 45 false])
  = PInf.
Proof.
  apply (proj2 (proj2 (proj2 (proj2 (proj2 (proj2 (proj2
           (metrics_are_consistent
              [Outcome.close_transaction Examples.short_50_20 "Take profit" 45 false]))))))));
    [discriminate|reflexivity].
Defined.





Lemma fold_max_bound (tl : list Q) (x : Q) :
  x <= fold_left (fun m y => if Qlt_bool m y then y else m) tl x
  /\ forall y, In y tl ->
               y <= fold_left (fun m y => if Qlt_bool m y then y else m) tl x.
Proof.
  revert x. induction tl as [|z tl IH]; intro x; cbn [fold_left].
  - split; [apply Qle_refl|intros y []].
  - destruct (IH (if Qlt_bool x z then z else x)) as [I1 I2].
    assert (Hx : x <= (if Qlt_bool x z then z else x)
                 /\ z <= (if Qlt_bool x z then z else x)).
    { destruct (Qlt_bool x z) eqn:E.
      - apply Qlt_bool_iff in E. split; lra.
      - apply Qlt_bool_false in E. split; lra. }
    split; [lra|]. intros y [Hy|Hy]; [subst y; lra|exact (I2 y Hy)].
Qed.

Lemma fold_min_bound (tl : list Q) (x : Q) :
  fold_left (fun m y => if Qlt_bool y m then y else m) tl x <= x
  /\ forall y, In y tl ->
               fold_left (fun m y => if Qlt_bool y m then y else m) tl x <= y.
Proof.
  revert x. induction tl as [|z tl IH]; intro x; cbn [fold_left].
  - split; [apply Qle_refl|intros y []].
  - destruct (IH (if Qlt_bool z x then z else x)) as [I1 I2].
    assert (Hx : (if Qlt_bool z x then z else x) <= x
                 /\ (if Qlt_bool z x then z else x) <= z).
    { destruct (Qlt_bool z x) eqn:E.
      - apply Qlt_bool_iff in E. split; lra.
      - apply Qlt_bool_false in E. split; lra. }
    split; [lra|]. intros y [Hy|Hy]; [subst y; lra|exact (I2 y Hy)].
Qed.

(** X22. The largest win and the largest loss of the metrics bound the
    P/L of every Close row: each lies between largest_loss and
    largest_win (which are then numbers, not NaN). *)
Theorem extremes_bound_every_close (h : list Transaction) (t : Transaction)
  (p : Q) :
  In t h -> is_close t = true -> P_L t = Some p ->
  exists lo hi,
    largest_loss (calculate_performance_metrics h) = Fin lo
    /\ largest_win (calculate_performance_metrics h) = Fin hi
    /\ lo <= p <= hi.
Proof.
  intros Hin Hc Hp.
  destruct h as [|t0 h0]; [contradiction|].
  unfold calculate_performance_metrics. cbv zeta. cbn [largest_win largest_loss].
  set (ct := filter is_close (t0 :: h0)).
  assert (Hmem : In p (pnl_where (fun _ => true) ct)).
  { unfold pnl_where. apply in_flat_map. exists t. split.
    - unfold ct. apply filter_In. split; assumption.
    - rewrite Hp. left. reflexivity. }
  destruct (pnl_where (fun _ => true) ct) as [|x tl]; [contradiction|].
  unfold series_max, series_min.
  destruct (fold_max_bound tl x) as [M1 M2].
  destruct (fold_min_bound tl x) as [N1 N2].
  do 2 eexists. split; [reflexivity|]. split; [reflexivity|].
  destruct Hmem as [Hx|Hx].
  - subst x. split; assumption.
  - split; [exact (N2 p Hx)|exact (M2 p Hx)].
Qed.

(** A win of 100 and a loss of 100. *)
Lemma extremes_bound_every_close_witness :
  exists lo hi,
    largest_loss (calculate_performance_metrics
                    [Outcome.close_transaction Examples.short_50_20 "Take profit" 45 false;
                     Outcome.close_transaction Examples.short_50_20 "Stop loss" 55 false])
    = Fin lo
    /\ largest_win (calculate_performance_metrics
                      [Outcome.close_transaction Examples.short_50_20 "Take profit" 45 false;
                       Outcome.close_transaction Examples.short_50_20 "Stop loss" 55 false])
       = Fin hi
    /\ lo <= 100 <= hi.
Proof.
  apply (extremes_bound_every_close _
           (Outcome.close_transaction Examples.short_50_20 "Take profit" 45 false)).
  - left. reflexivity.
  - reflexivity.
  - reflexivity.
Defined.

End MetricsFacts.

(* ------------------------------------------------------------------ *)
(** * Watch list and rotation *)

Section WatchlistFacts.

Import Watchlist Rotation.

Lemma has_symbol_In (s : string) (tb : table) :
  has_symbol s tb = true <-> In s (symbols tb).
Proof.
  unfold has_symbol, symbols. rewrite existsb_exists. split.
  - intros (r & Hr & He). apply String.eqb_eq in He. subst s.
    apply in_map. exact Hr.
  - intro H. apply in_map_iff in H. destruct H as (r & Hr & Hin).
    exists r. split; [exact Hin|]. apply String.eqb_eq. exact Hr.
Qed.

Lemma has_symbol_false (s : string) (tb : table) :
  has_symbol s tb = false <-> ~ In s (symbols tb).
Proof.
  rewrite <- has_symbol_In. destruct (has_symbol s tb); split; congruence.
Qed.

Lemma symbols_delete_first (s : string) (tb : table) (x : string) :
  In x (symbols (delete_first s tb)) -> In x (symbols tb).
Proof.
  induction tb as [|r tb IH]; [intros []|].
  cbn [delete_first]. destruct (String.eqb (item_symbol r) s).
  - intro H. right. exact H.
  - cbn. intros [H|H]; [left; exact H|right; exact (IH H)].
Qed.

Lemma NoDup_delete_first (s : string) (tb : table) :
  NoDup (symbols tb) ->
  NoDup (symbols (delete_first s tb)) /\ ~ In s (symbols (delete_first s tb)).
Proof.
  induction tb as [|r tb IH]; intro H.
  - split; [constructor|intros []].
  - cbn in H. inversion H as [|a l Hn Hd]; subst.
    cbn [delete_first]. destruct (String.eqb (item_symbol r) s) eqn:E.
    + apply String.eqb_eq in E. subst s. split; assumption.
    + apply String.eqb_neq in E. destruct (IH Hd) as [I1 I2]. split.
      * cbn. constructor; [|exact I1].
        intro Hin. apply Hn. exact (symbols_delete_first s tb _ Hin).
      * cbn. intros [Hs|Hs]; [exact (E Hs)|exact (I2 Hs)].
Qed.

Lemma symbols_set_first_price (s : string) (p : Q) (tb : table) :
  symbols (set_first_price s p tb) = symbols tb.
Proof.
  induction tb as [|r tb IH]; [reflexivity|].
  cbn [set_first_price]. destruct (String.eqb (item_symbol r) s).
  - reflexivity.
  - cbn. f_equal. exact IH.
Qed.

Lemma NoDup_snoc {A} (l : list A) (a : A) :
  NoDup l -> ~ In a l -> NoDup (l ++ [a]).
Proof.
  induction l as [|x l IH]; intros H Hn; cbn.
  - constructor; [intros []|constructor].
  - inversion H as [|y l' Hx Hl]; subst. constructor.
    + intro Hin. apply in_app_or in Hin. destruct Hin as [Hin|[Hin|[]]].
      * exact (Hx Hin).
      * subst. apply Hn. left. reflexivity.
    + apply IH; [exact Hl|]. intro Hin. apply Hn. right. exact Hin.
Qed.

Lemma serve_keeps_unique (tb : table) (r : request) :
  NoDup (symbols tb) -> NoDup (symbols (serve tb r)).
Proof.
  intro H. destruct r as [s p|s|s p|]; cbn [serve].
  - unfold add_stock_to_watchlist. destruct (has_symbol s tb) eqn:E; [exact H|].
    cbn [fst]. unfold symbols. rewrite map_app. cbn [map].
    apply has_symbol_false in E.
    apply NoDup_snoc; assumption.
  - unfold remove_stock_from_watchlist. destruct (has_symbol s tb); [|exact H].
    cbn [fst]. exact (proj1 (NoDup_delete_first s tb H)).
  - unfold update_stock_price. destruct (has_symbol s tb); [|exact H].
    cbn [fst]. rewrite symbols_set_first_price. exact H.
  - constructor.
Qed.

(** X23. The watch-list table never holds a symbol twice: starting from
    the empty table, after any sequence of add, remove, update and clear
    requests the symbols in it are pairwise different. *)
Theorem watchlist_symbols_unique (rs : list request) :
  NoDup (symbols (fold_left serve rs [])).
Proof.
  assert (G : forall rs tb, NoDup (symbols tb) ->
                            NoDup (symbols (fold_left serve rs tb))).
  { induction rs0 as [|r rs0 IH]; intros tb H; [exact H|].
    cbn [fold_left]. apply IH, serve_keeps_unique, H. }
  apply G. constructor.
Qed.

Lemma delete_first_snoc (s : string) (p : Q) (tb : table) :
  ~ In s (symbols tb) -> delete_first s (tb ++ [mkWatchItem s p]) = tb.
Proof.
  induction tb as [|r tb IH]; intro H; cbn [app delete_first item_symbol].
  - rewrite String.eqb_refl. reflexivity.
  - destruct (String.eqb (item_symbol r) s) eqn:E.
    + apply String.eqb_eq in E. exfalso. apply H. left. exact E.
    + f_equal. apply IH. intro Hin. apply H. right. exact Hin.
Qed.

Lemma has_symbol_snoc (s : string) (p : Q) (tb : table) :
  has_symbol s (tb ++ [mkWatchItem s p]) = true.
Proof.
  apply has_symbol_In. unfold symbols. rewrite map_app. apply in_or_app.
  right. left. reflexivity.
Qed.

(** X24. On a table without duplicates: adding a symbol that is not there
    succeeds and removing it again gives back the table as it was; adding
    a symbol that is there is refused and changes nothing; after a
    successful remove the symbol is gone; removing or updating a symbol
    that is not there returns False and changes nothing. *)
Theorem watchlist_add_remove (tb : table) (s : string) (p : Q) :
  NoDup (symbols tb) ->
  (has_symbol s tb = false ->
   add_stock_to_watchlist s p tb = (tb ++ [mkWatchItem s p], true)
   /\ remove_stock_from_watchlist s (tb ++ [mkWatchItem s p]) = (tb, true)
   /\ remove_stock_from_watchlist s tb = (tb, false)
   /\ update_stock_price s p tb = (tb, false))
  /\ (has_symbol s tb = true ->
      add_stock_to_watchlist s p tb = (tb, false)
      /\ snd (remove_stock_from_watchlist s tb) = true
      /\ has_symbol s (fst (remove_stock_from_watchlist s tb)) = false).
Proof.
  intro H. split; intro E.
  - unfold add_stock_to_watchlist, remove_stock_from_watchlist, update_stock_price.
    rewrite E, has_symbol_snoc, delete_first_snoc;
      [repeat split|apply has_symbol_false; exact E].
  - unfold add_stock_to_watchlist, remove_stock_from_watchlist. rewrite E.
    cbn [fst snd]. repeat split.
    apply has_symbol_false. exact (proj2 (NoDup_delete_first s tb H)).
Qed.

(** Adding CBA to a table that holds BHP. *)
Lemma watchlist_add_remove_witness :
  remove_stock_from_watchlist "CBA" ([mkWatchItem "BHP" 50] ++ [mkWatchItem "CBA" 100])
  = ([mkWatchItem "BHP" 50], true).
Proof.
  refine (proj1 (proj2 (proj1 (watchlist_add_remove [mkWatchItem "BHP" 50] "CBA" 100 _)
                              eq_refl))).
  constructor; [intros []|constructor].
Defined.

Lemma index_from_range (i : Z) (s : string) (stocks : list WatchItem) :
  index_from i s stocks = (-1)%Z
  \/ (i <= index_from i s stocks < i + Z.of_nat (List.length stocks))%Z.
Proof.
  revert i. induction stocks as [|x stocks IH]; intro i; cbn [index_from].
  - left. reflexivity.
  - destruct (String.eqb (item_symbol x) s).
    + right. cbn [List.length]. lia.
    + destruct (IH (i + 1)%Z) as [H|H]; [left; exact H|right].
      cbn [List.length]. lia.
Qed.

(** X25. [get_next_stock_for_trading] returns nothing exactly when the
    watch list is empty, and otherwise always a row of the list; without
    a current symbol, or with one that is not listed, it is the first
    row. *)
Theorem next_stock_is_listed (stocks : list WatchItem) (cur : option string) :
  (get_next_stock_for_trading stocks cur = None <-> stocks = [])
  /\ (forall x, get_next_stock_for_trading stocks cur = Some x -> In x stocks)
  /\ (forall first rest, stocks = first :: rest ->
        (cur = None \/ exists s, cur = Some s /\ has_symbol s stocks = false) ->
        get_next_stock_for_trading stocks cur = Some first).
Proof.
  assert (Hin : forall x, get_next_stock_for_trading stocks cur = Some x ->
                          In x stocks).
  { intros x H. unfold get_next_stock_for_trading in H.
    destruct stocks as [|f rest]; [discriminate|].
    destruct cur as [s|]; [|inversion H; left; reflexivity].
    cbv zeta in H. destruct (0 <=? _)%Z; [|inversion H; left; reflexivity].
    exact (nth_error_In _ _ H). }
  split; [|split; [exact Hin|]].
  - split; [|intro H; subst; reflexivity].
    destruct stocks as [|f rest]; [reflexivity|]. intro H. exfalso.
    unfold get_next_stock_for_trading in H.
    destruct cur as [s|]; [|discriminate]. cbv zeta in H.
    destruct (0 <=? index_from 0 s (f :: rest))%Z eqn:E; [|discriminate].
    apply nth_error_None in H.
    pose proof (Z.mod_pos_bound (index_from 0 s (f :: rest) + 1)
                  (Z.of_nat (List.length (f :: rest)))) as Hb.
    cbn [List.length] in *. lia.
  - intros first rest Hs Hc. subst stocks. unfold get_next_stock_for_trading.
    destruct Hc as [Hc|(s & Hc & Hn)]; subst cur; [reflexivity|].
    cbv zeta.
    assert (Hi : index_from 0 s (first :: rest) = (-1)%Z).
    { clear Hin. revert Hn. generalize 0%Z. generalize (first :: rest).
      induction l as [|x l IH]; intros i Hn; [reflexivity|].
      cbn [index_from]. unfold has_symbol in Hn. cbn [existsb] in Hn.
      apply orb_false_iff in Hn. destruct Hn as [Hx Hl]. rewrite Hx.
      apply IH. exact Hl. }
    rewrite Hi. reflexivity.
Qed.

Lemma next_stock_is_listed_witness :
  get_next_stock_for_trading [mkWatchItem "BHP" 50; mkWatchItem "CBA" 100]
                             (Some "ANZ"%string)
  = Some (mkWatchItem "BHP" 50).
Proof.
  apply (proj2 (proj2 (next_stock_is_listed
                         [mkWatchItem "BHP" 50; mkWatchItem "CBA" 100]
                         (Some "ANZ"%string)))
               (mkWatchItem "BHP" 50) [mkWatchItem "CBA" 100] eq_refl).
  right. exists "ANZ"%string. split; reflexivity.
Defined.

(** In a list without duplicate symbols a row is found at its own index. *)
Lemma index_from_nth (stocks : list WatchItem) (i : nat) (k : Z) (x : WatchItem) :
  NoDup (symbols stocks) ->
  nth_error stocks i = Some x ->
  index_from k (item_symbol x) stocks = (k + Z.of_nat i)%Z.
Proof.
  revert i k. induction stocks as [|y stocks IH]; intros i k Hd Hn.
  - destruct i; discriminate.
  - cbn in Hd. inversion Hd as [|a l Hy Hl]; subst.
    destruct i as [|i]; cbn [nth_error] in Hn.
    + inversion Hn; subst. cbn [index_from]. rewrite String.eqb_refl. lia.
    + cbn [index_from].
      destruct (String.eqb (item_symbol y) (item_symbol x)) eqn:E.
      * apply String.eqb_eq in E. exfalso. apply Hy. rewrite E.
        apply in_map. exact (nth_error_In _ _ Hn).
      * rewrite (IH i (k + 1)%Z Hl Hn). lia.
Qed.

Lemma next_of_nth (stocks : list WatchItem) (i : nat) (x : WatchItem) :
  NoDup (symbols stocks) ->
  nth_error stocks i = Some x ->
  get_next_stock_for_trading stocks (Some (item_symbol x))
  = nth_error stocks ((i + 1) mod List.length stocks).
Proof.
  intros Hd Hn. unfold get_next_stock_for_trading.
  destruct stocks as [|f rest] eqn:Es; [destruct i; discriminate|].
  rewrite <- Es in *. cbv zeta.
  rewrite (index_from_nth stocks i 0 x Hd Hn).
  assert (Hlen : (0 < List.length stocks)%nat) by (rewrite Es; cbn; lia).
  destruct (0 <=? 0 + Z.of_nat i)%Z eqn:E; [|apply Z.leb_gt in E; lia].
  f_equal.
  replace (0 + Z.of_nat i + 1)%Z with (Z.of_nat (i + 1)) by lia.
  rewrite <- Nat2Z.inj_mod. apply Nat2Z.id.
Qed.

(** X26. On a watch list without duplicate symbols the rotation walks the
    list in order and wraps around: following it [k] times from the row
    at index [i] leads to the row at index (i + k) mod len; so after len
    steps it is back where it started, having passed every row. *)
Theorem rotation_walks_the_list (stocks : list WatchItem) (k i : nat)
  (x : WatchItem) :
  NoDup (symbols stocks) ->
  nth_error stocks i = Some x ->
  follow stocks k (item_symbol x)
  = option_map item_symbol (nth_error stocks ((i + k) mod List.length stocks))
  /\ follow stocks (List.length stocks) (item_symbol x) = Some (item_symbol x).
Proof.
  intros Hd Hn.
  assert (Hlen : (i < List.length stocks)%nat)
    by (apply nth_error_Some; rewrite Hn; discriminate).
  assert (G : forall k i x, nth_error stocks i = Some x ->
              follow stocks k (item_symbol x)
              = option_map item_symbol
                  (nth_error stocks ((i + k) mod List.length stocks))).
  { clear i x Hn Hlen k. intro k. induction k as [|k IH]; intros i x Hn.
    - assert (Hi : (i < List.length stocks)%nat)
        by (apply nth_error_Some; rewrite Hn; discriminate).
      cbn [follow]. rewrite Nat.add_0_r. rewrite (Nat.mod_small _ _ Hi).
      rewrite Hn. reflexivity.
    - assert (Hi : (i < List.length stocks)%nat)
        by (apply nth_error_Some; rewrite Hn; discriminate).
      cbn [follow]. rewrite (next_of_nth stocks i x Hd Hn).
      assert (Hj : ((i + 1) mod List.length stocks < List.length stocks)%nat)
        by (apply Nat.mod_upper_bound; lia).
      destruct (nth_error stocks ((i + 1) mod List.length stocks)) as [y|] eqn:Ey.
      2:{ apply nth_error_None in Ey. lia. }
      rewrite (IH _ y Ey). f_equal. f_equal.
      rewrite Nat.Div0.add_mod_idemp_l. f_equal. lia. }
  split; [apply G; exact Hn|].
  rewrite (G _ i x Hn).
  replace (i + List.length stocks)%nat with (i + 1 * List.length stocks)%nat by lia.
  rewrite Nat.Div0.mod_add. rewrite (Nat.mod_small _ _ Hlen).
  rewrite Hn. reflexivity.
Qed.

(** Three rows, starting from the last. *)
Lemma rotation_walks_the_list_witness :
  follow [mkWatchItem "BHP" 50; mkWatchItem "CBA" 100; mkWatchItem "ANZ" 30] 1 "ANZ"
  = Some "BHP"%string.
Proof.
  refine (proj1 (rotation_walks_the_list
                   [mkWatchItem "BHP" 50; mkWatchItem "CBA" 100; mkWatchItem "ANZ" 30]
                   1 2 (mkWatchItem "ANZ" 30) _ eq_refl)).
  repeat constructor; cbn; intuition discriminate.
Defined.

End WatchlistFacts.

(* ------------------------------------------------------------------ *)
(** * The brokerage service *)

Section ASXFacts.

Import ASXService.

Lemma contains_append_r (pat a b : string) :
  Performance.contains pat b = true ->
  Performance.contains pat (a ++ b) = true.
Proof.
  intro H. induction a as [|c a IH]; [exact H|].
  cbn [String.append Performance.contains]. rewrite IH. apply orb_true_r.
Qed.

Lemma substring_head_in (k m : nat) (s : string) (c : Ascii.ascii) (rest : string) :
  String.substring k m s = String c rest ->
  Performance.contains (String c EmptyString) s = true.
Proof.
  revert k. induction s as [|a s IH]; intros k H.
  - destruct k, m; discriminate.
  - cbn [Performance.contains]. destruct k as [|k].
    + destruct m as [|m]; [discriminate|]. cbn [String.substring] in H.
      inversion H; subst. cbn [String.prefix].
      destruct (Ascii.ascii_dec c c) as [_|Hn]; [|contradiction].
      destruct s; reflexivity.
    + cbn [String.substring] in H. rewrite (IH k H). apply orb_true_r.
Qed.

Lemma ends_with_ax_has_dot (s : string) :
  ends_with ".AX" s = true -> Performance.contains "." s = true.
Proof.
  unfold ends_with. cbv zeta. intro H. apply andb_true_iff in H.
  destruct H as [_ H]. apply String.eqb_eq in H.
  exact (substring_head_in _ _ _ _ _ H).
Qed.

(** X27. The symbol sent to the brokerage always has a dot in it; a symbol
    with a dot is sent as it is and any other gets ".AX" appended (the
    test for the ending ".AX" never decides); normalising twice is
    normalising once. *)
Theorem asx_symbol_normalises (s : string) :
  Performance.contains "." (asx_symbol s) = true
  /\ asx_symbol s
     = (if Performance.contains "." s then s else (s ++ ".AX")%string)
  /\ asx_symbol (asx_symbol s) = asx_symbol s.
Proof.
  assert (Hshape : forall x, asx_symbol x
            = if Performance.contains "." x then x else (x ++ ".AX")%string).
  { intro x. unfold asx_symbol.
    destruct (Performance.contains "." x) eqn:Ec.
    - rewrite andb_false_r. reflexivity.
    - destruct (ends_with ".AX" x) eqn:Ee; [|reflexivity].
      apply ends_with_ax_has_dot in Ee. congruence. }
  assert (Hdot : forall x, Performance.contains "." (asx_symbol x) = true).
  { intro x. rewrite Hshape.
    destruct (Performance.contains "." x) eqn:Ec; [exact Ec|].
    apply contains_append_r. reflexivity. }
  split; [apply Hdot|]. split; [apply Hshape|].
  rewrite (Hshape (asx_symbol s)), Hdot. reflexivity.
Qed.

Lemma asx_symbol_idem (s : string) : asx_symbol (asx_symbol s) = asx_symbol s.
Proof.
  assert (Hdot : Performance.contains "." (asx_symbol s) = true).
  { unfold asx_symbol.
    destruct (ends_with ".AX" s) eqn:Ee; cbn [negb andb].
    - apply ends_with_ax_has_dot, Ee.
    - destruct (Performance.contains "." s) eqn:Ec; cbn [negb]; [exact Ec|].
      apply contains_append_r. reflexivity. }
  unfold asx_symbol at 1. rewrite Hdot, andb_false_r. reflexivity.
Qed.

(** X28. The service trades only behind its guards.  [open_short_position]
    sends at most one request, a sell of the given quantity of the
    normalised symbol, and only when it is connected and the brokerage
    reports that asset as shortable; it never returns an order without
    having sent that request.  [close_short_position] with a quantity
    sends at most one request, a buy of that quantity, and only when the
    brokerage lists a position in the normalised symbol of at least that
    size. *)
Theorem orders_only_behind_guards (self : t) (symbol : string) (quantity : Z) :
  (fst (open_short_position self symbol quantity) = []
   \/ (fst (open_short_position self symbol quantity)
       = [PlaceOrder (asx_symbol symbol) quantity "sell"]
       /\ is_connected self = true
       /\ get_asset (brokerage self) (asx_symbol symbol) = Ok (Some true)))
  /\ (forall o, snd (open_short_position self symbol quantity) = Ok o ->
                fst (open_short_position self symbol quantity)
                = [PlaceOrder (asx_symbol symbol) quantity "sell"])
  /\ (fst (close_short_position self symbol (Some quantity)) = []
      \/ (fst (close_short_position self symbol (Some quantity))
          = [PlaceOrder (asx_symbol symbol) quantity "buy"]
          /\ is_connected self = true
          /\ exists positions p,
               get_positions (brokerage self) = Ok positions
               /\ In p positions
               /\ bp_symbol p = asx_symbol symbol
               /\ (quantity <= Z.abs (bp_qty p))%Z)).
Proof.
  unfold open_short_position, close_short_position, check_stock_shortable.
  cbv zeta. rewrite asx_symbol_idem.
  destruct (is_connected self); cbn [negb].
  2:{ split; [left; reflexivity|]. split; [discriminate|left; reflexivity]. }
  split; [|split].
  - destruct (get_asset (brokerage self) (asx_symbol symbol)) as [[[|]|]|e];
      cbn [fst]; try (left; reflexivity).
    right. repeat split.
  - intros o.
    destruct (get_asset (brokerage self) (asx_symbol symbol)) as [[[|]|]|e];
      cbn [fst snd]; try discriminate. reflexivity.
  - destruct (get_positions (brokerage self)) as [positions|e];
      [|left; reflexivity].
    destruct (find _ positions) as [p|] eqn:Ef; [|left; reflexivity].
    destruct (Z.abs (bp_qty p) <? quantity)%Z eqn:El; [left; reflexivity|].
    right. cbn [fst]. split; [reflexivity|]. split; [reflexivity|].
    exists positions, p. apply find_some in Ef. destruct Ef as [Hin He].
    apply String.eqb_eq in He. apply Z.ltb_ge in El. repeat split; assumption.
Qed.

Lemma orders_only_behind_guards_witness :
  fst (open_short_position
         (mkASX true (mkBrokerage (fun _ => Ok (Some true)) (Ok [])
                        (fun _ => Ok (Examples.order_with "filled"))
                        (fun _ _ => Ok (Examples.order_with "filled"))))
         "BHP" 20)
  = [PlaceOrder "BHP.AX" 20 "sell"].
Proof.
  exact (proj1 (proj2 (orders_only_behind_guards
           (mkASX true (mkBrokerage (fun _ => Ok (Some true)) (Ok [])
                          (fun _ => Ok (Examples.order_with "filled"))
                          (fun _ _ => Ok (Examples.order_with "filled"))))
           "BHP" 20)) (Examples.order_with "filled") eq_refl).
Defined.

Lemma wait_loop_final (self : t) (oid : option string) (start timeout : Q)
  (clock : list Q) (n : nat) (o : Order) :
  wait_loop self oid start timeout n clock = Returned (Some o) ->
  is_final (status o) = true.
Proof.
  revert n. induction clock as [|now later IH]; intros n H; [discriminate|].
  cbn [wait_loop] in H.
  destruct (Qlt_bool (now - start) timeout); [|discriminate].
  destruct (get_order (brokerage self) n oid) as [order|e]; [|exact (IH _ H)].
  destruct (is_final (status order)) eqn:E; [|exact (IH _ H)].
  inversion H; subst. exact E.
Qed.

Lemma wait_loop_ends (self : t) (oid : option string) (start timeout : Q)
  (clock : list Q) (n : nat) :
  (exists now, In now clock /\ timeout <= now - start) ->
  wait_loop self oid start timeout n clock <> Polling.
Proof.
  revert n. induction clock as [|now later IH]; intros n (t0 & Hin & Hle).
  - contradiction.
  - cbn [wait_loop].
    destruct (Qlt_bool (now - start) timeout) eqn:E; [|discriminate].
    apply Qlt_bool_iff in E.
    assert (Hlater : exists t1, In t1 later /\ timeout <= t1 - start).
    { destruct Hin as [Hin|Hin]; [subst; lra|]. exists t0. split; assumption. }
    destruct (get_order (brokerage self) n oid) as [order|e]; [|apply IH, Hlater].
    destruct (is_final (status order)); [discriminate|apply IH, Hlater].
Qed.

(** X29. [wait_for_order_fill] raises when the service is not connected.
    Otherwise it never returns a pending order: what it returns is an
    order in a final status (filled, canceled, rejected, expired) or
    nothing; failed polls never make it raise; and once the clock shows
    that the timeout has passed, it has returned. *)
Theorem wait_returns_final_or_nothing (self : t) (oid : option string)
  (timeout : Q) (clock : list Q) :
  (is_connected self = false ->
   wait_for_order_fill self oid timeout clock = Raise ConnectionError)
  /\ (is_connected self = true ->
      exists w,
        wait_for_order_fill self oid timeout clock = Ok w
        /\ (forall o, w = Returned (Some o) -> is_final (status o) = true)
        /\ (forall start later, clock = start :: later ->
              (exists now, In now later /\ timeout <= now - start) ->
              w <> Polling)).
Proof.
  unfold wait_for_order_fill. split; intro Hc; rewrite Hc; cbn [negb].
  - reflexivity.
  - destruct clock as [|start later].
    + eexists. split; [reflexivity|]. split; [discriminate|].
      intros s l H. discriminate.
    + eexists. split; [reflexivity|]. split.
      * intros o H. exact (wait_loop_final _ _ _ _ _ _ _ H).
      * intros s l H. inversion H; subst. apply wait_loop_ends.
Qed.

(** An order that stays in status new, polled at 2 s and 4 s, with a
    timeout of 3 s. *)
Lemma wait_returns_final_or_nothing_witness :
  exists w,
    wait_for_order_fill
      (mkASX true (mkBrokerage (fun _ => Ok None) (Ok [])
                     (fun _ => Ok (Examples.order_with "new"))
                     (fun _ _ => Ok (Examples.order_with "new"))))
      None 3 [0; 2; 4] = Ok w
    /\ w <> Polling.
Proof.
  destruct (proj2 (wait_returns_final_or_nothing
              (mkASX true (mkBrokerage (fun _ => Ok None) (Ok [])
                             (fun _ => Ok (Examples.order_with "new"))
                             (fun _ _ => Ok (Examples.order_with "new"))))
              None 3 [0; 2; 4]) eq_refl) as (w & Hw & _ & Hend).
  exists w. split; [exact Hw|].
  apply (Hend 0 [2; 4] eq_refl). exists 4. split; [right; left; reflexivity|].
  discriminate.
Defined.

End ASXFacts.

(* ------------------------------------------------------------------ *)
(** * The market-data cache *)

Section CacheFacts.

Import MarketData.

Lemma fetch_keeps_ok (provider : string -> string -> string -> result DataFrame)
  (now : Q) (symbol period interval : string) (c : t) :
  cache_ok c ->
  cache_ok (fst (get_stock_historical_data provider now symbol period interval c))
  /\ forall data,
       snd (get_stock_historical_data provider now symbol period interval c)
       = Ok data -> empty data = false.
Proof.
  intro Hok. unfold get_stock_historical_data. cbv zeta.
  assert (Hfetch :
    cache_ok (fst (match provider symbol period interval with
                   | Raise e => (c, Raise e)
                   | Ok data =>
                       if empty data
                       then (c, Raise (ValueError ("No data available for " ++ symbol)))
                       else (store (cache_key symbol period interval) data now c,
                             Ok data)
                   end))
    /\ forall data,
         snd (match provider symbol period interval with
              | Raise e => (c, Raise e)
              | Ok data =>
                  if empty data
                  then (c, Raise (ValueError ("No data available for " ++ symbol)))
                  else (store (cache_key symbol period interval) data now c,
                        Ok data)
              end) = Ok data -> empty data = false).
  { destruct (provider symbol period interval) as [d|e].
    - destruct (empty d) eqn:Ed; cbn [fst snd].
      + split; [exact Hok|discriminate].
      + split.
        * intros k data. unfold store. cbn [cache].
          destruct (String.eqb k (cache_key symbol period interval)).
          -- intro H. inversion H; subst. exact Ed.
          -- apply Hok.
        * intros data H. inversion H; subst. exact Ed.
    - cbn [fst snd]. split; [exact Hok|discriminate]. }
  destruct (cache c (cache_key symbol period interval)) as [d|] eqn:Ec;
    [|exact Hfetch].
  destruct (Qlt_bool _ cache_duration); [|exact Hfetch].
  cbn [fst snd]. split; [exact Hok|].
  intros data H. inversion H; subst. exact (Hok _ _ Ec).
Qed.

Lemma fetch_result (provider : string -> string -> string -> result DataFrame)
  (now : Q) (symbol period interval : string) (c c1 : t) (r : result DataFrame) :
  get_stock_historical_data provider now symbol period interval c = (c1, r) ->
  (exists data, r = Ok data /\ c1 = c
                /\ cache c (cache_key symbol period interval) = Some data)
  \/ (exists data, r = Ok data
                   /\ c1 = store (cache_key symbol period interval) data now c)
  \/ (exists e, r = Raise e /\ c1 = c).
Proof.
  unfold get_stock_historical_data. cbv zeta. intro H.
  assert (Hfetch :
    match provider symbol period interval with
    | Raise e => (c, Raise e)
    | Ok data =>
        if empty data
        then (c, Raise (ValueError ("No data available for " ++ symbol)))
        else (store (cache_key symbol period interval) data now c, Ok data)
    end = (c1, r) ->
    (exists data, r = Ok data
                  /\ c1 = store (cache_key symbol period interval) data now c)
    \/ (exists e, r = Raise e /\ c1 = c)).
  { destruct (provider symbol period interval) as [d|e].
    - destruct (empty d); intro H0; inversion H0; subst.
      + right. eexists. split; reflexivity.
      + left. eexists. split; reflexivity.
    - intro H0. inversion H0; subst. right. eexists. split; reflexivity. }
  destruct (cache c (cache_key symbol period interval)) as [d|] eqn:Ec.
  - destruct (Qlt_bool _ cache_duration).
    + inversion H; subst. left. exists d. repeat split; try exact Ec.
    + right. exact (Hfetch H).
  - right. exact (Hfetch H).
Qed.

(** X30. The market-data cache.  A successful call leaves the frame it
    returns in the cache, and when that frame was fetched (nothing was
    cached before), a second call for the same symbol, period and interval
    less than 60 seconds later returns the same frame and leaves the cache
    as it is, whatever the provider would answer by then.  A failed call
    leaves the cache unchanged.  Starting from a cache of non-empty
    frames, no call returns or stores an empty frame. *)
Theorem cache_serves_recent_data
  (provider provider' : string -> string -> string -> result DataFrame)
  (t1 t2 : Q) (symbol period interval : string) (c : t) :
  (forall c1 data,
      get_stock_historical_data provider t1 symbol period interval c
      = (c1, Ok data) ->
      cache c1 (cache_key symbol period interval) = Some data
      /\ (cache c (cache_key symbol period interval) = None ->
          t2 - t1 < cache_duration ->
          get_stock_historical_data provider' t2 symbol period interval c1
          = (c1, Ok data)))
  /\ (forall c1 e,
         get_stock_historical_data provider t1 symbol period interval c
         = (c1, Raise e) -> c1 = c)
  /\ (cache_ok c ->
      cache_ok (fst (get_stock_historical_data provider t1 symbol period interval c))
      /\ forall data,
           snd (get_stock_historical_data provider t1 symbol period interval c)
           = Ok data -> empty data = false).
Proof.
  split; [|split].
  - intros c1 data H.
    destruct (fetch_result _ _ _ _ _ _ _ _ H)
      as [(d & Hr & Hc & Hin)|[(d & Hr & Hc)|(e & Hr & _)]];
      [| |discriminate]; inversion Hr; subst d; subst c1.
    + split; [exact Hin|]. intro Hn. congruence.
    + split; [unfold store; cbn [cache]; rewrite String.eqb_refl; reflexivity|].
      intros _ Hlt. unfold get_stock_historical_data, store. cbv zeta.
      cbn [cache cache_expiry]. rewrite String.eqb_refl.
      assert (E : Qlt_bool (t2 - t1) cache_duration = true)
        by (apply Qlt_bool_iff; exact Hlt).
      rewrite E. reflexivity.
  - intros c1 e H.
    destruct (fetch_result _ _ _ _ _ _ _ _ H)
      as [(d & Hr & _)|[(d & Hr & _)|(e' & _ & Hc)]];
      [discriminate|discriminate|exact Hc].
  - apply fetch_keeps_ok.
Qed.

(** An empty cache, a provider that answers with three bars, and a second
    call thirty seconds later to a provider that fails. *)
Lemma cache_serves_recent_data_witness :
  get_stock_historical_data (fun _ _ _ => Raise ConnectionError) 30 "BHP" "1d" "1m"
    (store (cache_key "BHP" "1d" "1m") Examples.rising_frame 0 empty_cache)
  = (store (cache_key "BHP" "1d" "1m") Examples.rising_frame 0 empty_cache,
     Ok Examples.rising_frame).
Proof.
  refine (proj2 (proj1 (cache_serves_recent_data
                          (fun _ _ _ => Ok Examples.rising_frame)
                          (fun _ _ _ => Raise ConnectionError)
                          0 30 "BHP" "1d" "1m" empty_cache)
                       _ Examples.rising_frame eq_refl) eq_refl eq_refl).
Defined.

End CacheFacts.
